(** * clearBG3: the image intake and preview controller of [src/App.tsx]

    A shallow embedding of the [App] component: its four pieces of React
    state, the file-input ref, the browser facilities its handlers touch
    (the object-URL store, the console, the download manager, the external
    [removeBackground] capability) and its event handlers, followed by the
    properties of the intake state machine. *)

From Stdlib Require Import ZArith String Ascii List Bool Lia.
From stdpp Require Import base option gmap.
Import ListNotations.

Local Open Scope Z_scope.
Local Open Scope string_scope.

(** ** Data model *)

(** A [File] as the handlers read it: [file.name], [file.type], [file.size].
    The bytes themselves are only ever handed to the browser and to the
    external capability. *)
Record File : Type := mkFile {
  file_name : string;
  file_type : string;
  file_size : Z
}.

(** The [Blob] that [removeBackground] resolves to. *)
Record Blob : Type := mkBlob {
  blob_type : string;
  blob_size : Z
}.

(** What [URL.createObjectURL] can be given here. *)
Inductive BlobSource : Type :=
| OfFile (f : File)
| OfBlob (b : Blob).

(** An object URL ([blob:<origin>/<uuid>]); the browser picks them fresh and
    the code treats them as opaque, so they are numbered in order of
    creation. *)
Definition ObjectURL : Type := nat.

(** [interface ProcessedImage { original; processed; name }] *)
Record ProcessedImage : Type := mkProcessedImage {
  original : ObjectURL;
  processed : ObjectURL;
  name : string
}.

(** The value caught by [catch (err)]. *)
Record JsError : Type := mkJsError { message : string }.

(** The four [useState] cells of [App]. *)
Record AppState : Type := mkAppState {
  dragActive : bool;
  processing : bool;
  processedImage : option ProcessedImage;
  error : option string
}.

(** The component together with the browser state its handlers reach.
    - [objectURLs]/[nextURL]: the blob URL store of the page; an entry is live
      from [createObjectURL] until [revokeObjectURL];
    - [console]: the arguments of each [console.error] call;
    - [removeCalls]: the arguments of each [removeBackground] call;
    - [downloads]: the [(href, download)] of each clicked link;
    - [fileInputRef]: [fileInputRef.current], [None] for [null], otherwise
      the [value] of the mounted [<input type="file">]. *)
Record Sys : Type := mkSys {
  ui : AppState;
  objectURLs : gmap nat BlobSource;
  nextURL : nat;
  console : list (string * JsError);
  removeCalls : list File;
  downloads : list (ObjectURL * string);
  fileInputRef : option string
}.

(** ** A state monad for the handlers *)

Definition M (A : Type) : Type := Sys -> A * Sys.

Definition ret {A} (a : A) : M A := fun s => (a, s).

Definition bind {A B} (m : M A) (k : A -> M B) : M B :=
  fun s => let (a, s') := m s in k a s'.

Notation "x <- m ;; k" := (bind m (fun x => k))
  (at level 100, m at next level, right associativity).
Notation "m ;;; k" := (bind m (fun _ => k))
  (at level 100, right associativity).

Definition exec {A} (m : M A) (s : Sys) : Sys := snd (m s).
Definition eval {A} (m : M A) (s : Sys) : A := fst (m s).

Definition modify_ui (f : AppState -> AppState) : M unit :=
  fun s => (tt, mkSys (f (ui s)) (objectURLs s) (nextURL s) (console s)
                      (removeCalls s) (downloads s) (fileInputRef s)).

(** The state setters returned by [useState]. No handler reads a cell after
    writing it, so a setter is modelled as the assignment it schedules. *)
Definition setDragActive (b : bool) : M unit :=
  modify_ui (fun u => mkAppState b (processing u) (processedImage u) (error u)).

Definition setProcessing (b : bool) : M unit :=
  modify_ui (fun u => mkAppState (dragActive u) b (processedImage u) (error u)).

Definition setProcessedImage (p : option ProcessedImage) : M unit :=
  modify_ui (fun u => mkAppState (dragActive u) (processing u) p (error u)).

Definition setError (e : option string) : M unit :=
  modify_ui (fun u => mkAppState (dragActive u) (processing u) (processedImage u) e).

(** [URL.createObjectURL(obj)]: registers [obj] under a new URL. *)
Definition createObjectURL (obj : BlobSource) : M ObjectURL :=
  fun s => (nextURL s,
            mkSys (ui s) (<[nextURL s := obj]> (objectURLs s)) (S (nextURL s))
                  (console s) (removeCalls s) (downloads s) (fileInputRef s)).

(** [console.error(label, err)] *)
Definition console_error (label : string) (err : JsError) : M unit :=
  fun s => (tt, mkSys (ui s) (objectURLs s) (nextURL s)
                      (console s ++ [(label, err)])
                      (removeCalls s) (downloads s) (fileInputRef s)).

(** The call [removeBackground(file)] itself; what it settles to is the
    environment's choice, see [Outcome]. *)
Definition call_removeBackground (file : File) : M unit :=
  fun s => (tt, mkSys (ui s) (objectURLs s) (nextURL s) (console s)
                      (removeCalls s ++ [file]) (downloads s) (fileInputRef s)).

(** [link.click()] on an anchor with the given [href] and [download]. *)
Definition click_link (href : ObjectURL) (download : string) : M unit :=
  fun s => (tt, mkSys (ui s) (objectURLs s) (nextURL s) (console s)
                      (removeCalls s) (downloads s ++ [(href, download)])
                      (fileInputRef s)).

Definition set_fileInputRef (v : option string) : M unit :=
  fun s => (tt, mkSys (ui s) (objectURLs s) (nextURL s) (console s)
                      (removeCalls s) (downloads s) v).

(** ** String helpers of the handlers *)

(** [s.startsWith(p)] *)
Fixpoint startsWith (s p : string) : bool :=
  match p with
  | EmptyString => true
  | String c p' =>
      match s with
      | EmptyString => false
      | String d s' => if Ascii.eqb c d then startsWith s' p' else false
      end
  end.

(** The character class [[^/.]]. *)
Definition not_slash_dot (c : ascii) : bool :=
  negb (Ascii.eqb c "/") && negb (Ascii.eqb c ".").

Fixpoint all_chars (p : ascii -> bool) (s : string) : bool :=
  match s with
  | EmptyString => true
  | String c s' => p c && all_chars p s'
  end.

(** Does [/\.[^/.]+$/] match [s] from its first character: a dot, then one
    or more characters of the class, then the end of the input. *)
Definition ext_matches_here (s : string) : bool :=
  match s with
  | String "." (String c rest) => all_chars not_slash_dot (String c rest)
  | _ => false
  end.

(** [s.replace(/\.[^/.]+$/, '')]: the regex has no [g] flag, so the leftmost
    match is replaced; as the pattern is anchored at the end, the match runs
    to the end of the string and what is kept is what precedes it. *)
Fixpoint replace_extension (s : string) : string :=
  if ext_matches_here s then EmptyString
  else match s with
       | EmptyString => EmptyString
       | String c s' => String c (replace_extension s')
       end.

(** ** The handlers *)

(** [handleDrag] (lines 18-26), on [e.type]. *)
Definition handleDrag (type : string) : M unit :=
  if String.eqb type "dragenter" || String.eqb type "dragover" then
    setDragActive true
  else if String.eqb type "dragleave" then
    setDragActive false
  else ret tt.

(** Where an invocation of the asynchronous [handleFile] stands when it
    hands control back: it has returned, or it is suspended at
    [await removeBackground(file)] holding [file] and [originalUrl]. *)
Inductive Suspension : Type :=
| Returned
| AwaitRemove (file : File) (originalUrl : ObjectURL).

(** How the external call ends: the promise is fulfilled with a blob, it is
    rejected, or the call threw; the last two both enter the [catch] clause
    with the error. *)
Inductive Outcome : Type :=
| Fulfilled (imageBlob : Blob)
| Rejected (err : JsError)
| Threw (err : JsError).

(** [handleFile] up to its [await] (lines 38-57). *)
Definition handleFile (file : File) : M Suspension :=
  if negb (startsWith (file_type file) "image/") then
    setError (Some "Please select a valid image file") ;;;
    ret Returned
  else if file_size file >? 10 * 1024 * 1024 then
    setError (Some "File size must be less than 10MB") ;;;
    ret Returned
  else
    setError None ;;;
    setProcessing true ;;;
    originalUrl <- createObjectURL (OfFile file) ;;
    call_removeBackground file ;;;
    ret (AwaitRemove file originalUrl).

(** [handleFile] from the point where the external call has ended
    (lines 57-70): the rest of the [try] block, or the [catch] clause, and
    then the [finally] clause. *)
Definition handleFile_resume (file : File) (originalUrl : ObjectURL)
    (o : Outcome) : M unit :=
  match o with
  | Fulfilled imageBlob =>
      processedUrl <- createObjectURL (OfBlob imageBlob) ;;
      setProcessedImage
        (Some (mkProcessedImage originalUrl processedUrl (file_name file)))
  | Rejected err | Threw err =>
      console_error "Background removal failed:" err ;;;
      setError
        (Some "Failed to remove background. Please try again with a different image.")
  end ;;;
  setProcessing false.

(** [if (files && files[0]) handleFile(files[0])], shared by [handleDrop]
    and [handleFileInput]. *)
Definition with_first_file (files : list File) : M Suspension :=
  match files with
  | [] => ret Returned
  | file :: _ => handleFile file
  end.

(** [handleDrop] (lines 28-36). *)
Definition handleDrop (files : list File) : M Suspension :=
  setDragActive false ;;;
  with_first_file files.

(** [handleFileInput] (lines 73-77). *)
Definition handleFileInput (files : list File) : M Suspension :=
  with_first_file files.

(** [handleReset] (lines 79-86). *)
Definition handleReset : M unit :=
  setProcessedImage None ;;;
  setProcessing false ;;;
  setError None ;;;
  fun s =>
    match fileInputRef s with
    | Some _ => set_fileInputRef (Some "") s
    | None => (tt, s)
    end.

(** [handleDownload] (lines 88-97). *)
Definition handleDownload : M unit :=
  fun s =>
    match processedImage (ui s) with
    | Some p =>
        click_link (processed p)
          ("bg-removed-" ++ replace_extension (name p) ++ ".png") s
    | None => (tt, s)
    end.

(** ** What is rendered *)

(** The three branches of the conditional in [main] (lines 125, 196, 215). *)
Inductive View : Type := UploadSection | ProcessingSection | ResultsSection.

Definition view (u : AppState) : View :=
  if negb (bool_decide (is_Some (processedImage u))) && negb (processing u)
  then UploadSection
  else if processing u then ProcessingSection
  else ResultsSection.

(** [{error && (...)}] (line 119): the banner shows a truthy [error]. *)
Definition errorBanner (u : AppState) : option string :=
  match error u with
  | Some EmptyString | None => None
  | Some msg => Some msg
  end.

(** The file input exists only inside the upload section (lines 147-153):
    React mounts a new, empty one when that section appears and sets
    [fileInputRef.current] to [null] when it goes away. *)
Definition commit (s : Sys) : Sys :=
  match view (ui s), fileInputRef s with
  | UploadSection, Some _ => s
  | UploadSection, None => exec (set_fileInputRef (Some "")) s
  | _, _ => exec (set_fileInputRef None) s
  end.

(** ** The event loop *)

(** The component and the invocations of [handleFile] that are suspended at
    their [await]. *)
Record Config : Type := mkConfig {
  sys : Sys;
  awaiting : list (File * ObjectURL)
}.

Definition suspend (k : Suspension) (l : list (File * ObjectURL)) :
    list (File * ObjectURL) :=
  match k with
  | Returned => l
  | AwaitRemove file originalUrl => l ++ [(file, originalUrl)]
  end.

(** The events the page reacts to. The drop zone and the file input belong to
    the upload section and the two buttons to the results section, so an
    event can only arrive while its element is rendered. [EvSettle n o] ends
    the external call of the [n]-th suspended invocation with [o]. *)
Inductive Event : Type :=
| EvDragEnter
| EvDragOver
| EvDragLeave
| EvDrop (files : list File)
| EvChange (files : list File)
| EvSettle (n : nat) (o : Outcome)
| EvClickDownload
| EvClickReset.

(** The [value] a file input reports once files are chosen; the browser
    sets it before the [change] event reaches [handleFileInput]. *)
Definition input_value (files : list File) : string :=
  match files with
  | [] => ""
  | file :: _ => "C:\fakepath\" ++ file_name file
  end.

Definition in_view (v : View) (c : Config) : bool :=
  match view (ui (sys c)), v with
  | UploadSection, UploadSection
  | ProcessingSection, ProcessingSection
  | ResultsSection, ResultsSection => true
  | _, _ => false
  end.

Definition run_unit (m : M unit) (c : Config) : Config :=
  mkConfig (commit (exec m (sys c))) (awaiting c).

Definition run_intake (m : M Suspension) (c : Config) : Config :=
  let (k, s') := m (sys c) in
  mkConfig (commit s') (suspend k (awaiting c)).

Definition step (c : Config) (ev : Event) : option Config :=
  match ev with
  | EvDragEnter =>
      if in_view UploadSection c then Some (run_unit (handleDrag "dragenter") c)
      else None
  | EvDragOver =>
      if in_view UploadSection c then Some (run_unit (handleDrag "dragover") c)
      else None
  | EvDragLeave =>
      if in_view UploadSection c then Some (run_unit (handleDrag "dragleave") c)
      else None
  | EvDrop files =>
      if in_view UploadSection c then Some (run_intake (handleDrop files) c)
      else None
  | EvChange files =>
      if in_view UploadSection c then
        Some (run_intake
                (set_fileInputRef (Some (input_value files)) ;;;
                 handleFileInput files) c)
      else None
  | EvSettle n o =>
      match awaiting c !! n with
      | Some (file, originalUrl) =>
          Some (mkConfig
                  (commit (exec (handleFile_resume file originalUrl o) (sys c)))
                  (delete n (awaiting c)))
      | None => None
      end
  | EvClickDownload =>
      if in_view ResultsSection c then Some (run_unit handleDownload c)
      else None
  | EvClickReset =>
      if in_view ResultsSection c then Some (run_unit handleReset c)
      else None
  end.

Fixpoint run (evs : list Event) (c : Config) : option Config :=
  match evs with
  | [] => Some c
  | ev :: evs' =>
      match step c ev with
      | Some c' => run evs' c'
      | None => None
      end
  end.

(** The page as first rendered. *)
Definition initial : Config :=
  mkConfig (mkSys (mkAppState false false None None) ∅ 0%nat [] [] [] (Some ""))
           [].

Inductive reachable : Config -> Prop :=
| reachable_initial : reachable initial
| reachable_step c ev c' :
    reachable c -> step c ev = Some c' -> reachable c'.

(** ** Vocabulary of the specification *)

(** A revocable reference is live while the URL store has an entry for it,
    and released once it has none. *)
Definition live (u : ObjectURL) (s : Sys) : Prop := is_Some (objectURLs s !! u).
Definition released (u : ObjectURL) (s : Sys) : Prop := objectURLs s !! u = None.

(** Splitting a name at its last dot: [Some (stem, ext)] when the name is
    [stem ++ "." ++ ext] and [ext] has no dot, [None] when it has no dot. *)
Fixpoint split_last_dot (s : string) : option (string * string) :=
  match s with
  | EmptyString => None
  | String c rest =>
      match split_last_dot rest with
      | Some (stem, ext) => Some (String c stem, ext)
      | None => if Ascii.eqb c "." then Some (EmptyString, rest) else None
      end
  end.

(** The specification's "original name with extension stripped", written
    from its words and independently of the regular expression: the final
    extension of a name is its last dot together with what follows it,
    provided something follows and it holds no path separator; a name
    without one is kept whole. *)
Definition strip_final_extension (s : string) : string :=
  match split_last_dot s with
  | Some (stem, String c ext) =>
      if all_chars (fun a => negb (Ascii.eqb a "/")) (String c ext)
      then stem else s
  | _ => s
  end.

(** The three ways an intake can fail: the first file of a drop or of a
    selection is refused by one of the two guards, or the external call of a
    suspended invocation is rejected or throws. *)
Definition refused (file : File) : bool :=
  negb (startsWith (file_type file) "image/")
  || (file_size file >? 10 * 1024 * 1024).

Definition is_error_event (ev : Event) : bool :=
  match ev with
  | EvDrop (file :: _) | EvChange (file :: _) => refused file
  | EvSettle _ (Rejected _) | EvSettle _ (Threw _) => true
  | _ => false
  end.

(** Release on reset, as the specification words it: once [handleReset] has
    run, both references of the result that was held are released. *)
Definition reset_releases (s : Sys) : Prop :=
  forall p, processedImage (ui s) = Some p ->
    released (original p) (exec handleReset s) /\
    released (processed p) (exec handleReset s).

(** Release of a superseded result, as the specification words it: along a
    session, a result that was held at some point and is no longer the one
    held has had both its references released. *)
Definition releases_superseded (evs : list Event) : Prop :=
  forall evs1 evs2 c1 c2 p,
    evs = (evs1 ++ evs2)%list ->
    run evs1 initial = Some c1 ->
    processedImage (ui (sys c1)) = Some p ->
    run evs initial = Some c2 ->
    processedImage (ui (sys c2)) <> Some p ->
    released (original p) (sys c2) /\ released (processed p) (sys c2).

(** While an invocation of [handleFile] is suspended it is the only one, the
    processing flag is up and no result is held; otherwise the flag is
    down. *)
Definition intake_inv (c : Config) : Prop :=
  (awaiting c = [] /\ processing (ui (sys c)) = false) \/
  (exists k, awaiting c = [k] /\ processing (ui (sys c)) = true /\
             processedImage (ui (sys c)) = None).

(** ** Sample files and sessions *)

Definition cat_jpg : File := mkFile "cat.jpg" "image/jpeg" (2 * 1000 * 1000).
Definition dog_png : File := mkFile "dog.png" "image/png" 4096.
Definition doc_pdf : File := mkFile "doc.pdf" "application/pdf" 1024.
Definition big_png : File := mkFile "big.png" "image/png" (11 * 1000 * 1000).
Definition limit_png : File := mkFile "limit.png" "image/png" (10 * 1024 * 1024).
Definition big_pdf : File :=
  mkFile "big.pdf" "application/pdf" (11 * 1024 * 1024).
Definition cat_cutout : Blob := mkBlob "image/png" 500000.
Definition dog_cutout : Blob := mkBlob "image/png" 3000.
Definition model_error : JsError := mkJsError "model download failed".

(** One upload carried through to its result. *)
Definition first_session : list Event :=
  [EvChange [cat_jpg]; EvSettle 0 (Fulfilled cat_cutout)].

(** The state [first_session] ends in. *)
Definition cat_result : Sys :=
  mkSys (mkAppState false false (Some (mkProcessedImage 0%nat 1%nat "cat.jpg")) None)
        (<[1%nat := OfBlob cat_cutout]> (<[0%nat := OfFile cat_jpg]> ∅))
        2 [] [cat_jpg] [] None.

(** The same, followed by a reset and a second upload. *)
Definition second_session : list Event :=
  (first_session ++
   [EvClickReset; EvChange [dog_png]; EvSettle 0 (Fulfilled dog_cutout)])%list.

(** The state [second_session] ends in. *)
Definition dog_result : Sys :=
  mkSys (mkAppState false false (Some (mkProcessedImage 2%nat 3%nat "dog.png"))
                    None)
        (<[3%nat := OfBlob dog_cutout]>
           (<[2%nat := OfFile dog_png]>
              (<[1%nat := OfBlob cat_cutout]>
                 (<[0%nat := OfFile cat_jpg]> ∅))))
        4 [] [cat_jpg; dog_png] [] None.

(** The state in which [cat_jpg] has been dispatched and is awaited. *)
Definition cat_awaited : Sys :=
  mkSys (mkAppState false true None None)
        (<[0%nat := OfFile cat_jpg]> ∅)
        1 [] [cat_jpg] [] None.

(** ** Bookkeeping over sessions *)

(** What one accepted event does to the browser-side state and to the
    suspended invocations; the cases follow the paths through the handlers:
    nothing, a download, a dispatch, a fulfilled call, a failed call. *)
Inductive step_kind (c c' : Config) : Prop :=
| kind_quiet :
    objectURLs (sys c') = objectURLs (sys c) ->
    nextURL (sys c') = nextURL (sys c) ->
    console (sys c') = console (sys c) ->
    removeCalls (sys c') = removeCalls (sys c) ->
    downloads (sys c') = downloads (sys c) ->
    awaiting c' = awaiting c ->
    processedImage (ui (sys c')) = processedImage (ui (sys c)) \/
    processedImage (ui (sys c')) = None ->
    step_kind c c'
| kind_download (p : ProcessedImage) :
    processedImage (ui (sys c)) = Some p ->
    ui (sys c') = ui (sys c) ->
    objectURLs (sys c') = objectURLs (sys c) ->
    nextURL (sys c') = nextURL (sys c) ->
    console (sys c') = console (sys c) ->
    removeCalls (sys c') = removeCalls (sys c) ->
    downloads (sys c') =
      (downloads (sys c) ++
       [(processed p,
         ("bg-removed-" ++ replace_extension (name p) ++ ".png")%string)])%list ->
    awaiting c' = awaiting c ->
    step_kind c c'
| kind_dispatch (file : File) :
    refused file = false ->
    processedImage (ui (sys c')) = processedImage (ui (sys c)) ->
    objectURLs (sys c') =
      <[nextURL (sys c) := OfFile file]> (objectURLs (sys c)) ->
    nextURL (sys c') = S (nextURL (sys c)) ->
    console (sys c') = console (sys c) ->
    removeCalls (sys c') = (removeCalls (sys c) ++ [file])%list ->
    downloads (sys c') = downloads (sys c) ->
    awaiting c' = (awaiting c ++ [(file, nextURL (sys c))])%list ->
    step_kind c c'
| kind_fulfilled (n : nat) (file : File) (originalUrl : ObjectURL)
    (imageBlob : Blob) :
    awaiting c !! n = Some (file, originalUrl) ->
    awaiting c' = delete n (awaiting c) ->
    processedImage (ui (sys c')) =
      Some (mkProcessedImage originalUrl (nextURL (sys c)) (file_name file)) ->
    objectURLs (sys c') =
      <[nextURL (sys c) := OfBlob imageBlob]> (objectURLs (sys c)) ->
    nextURL (sys c') = S (nextURL (sys c)) ->
    console (sys c') = console (sys c) ->
    removeCalls (sys c') = removeCalls (sys c) ->
    downloads (sys c') = downloads (sys c) ->
    step_kind c c'
| kind_failed (n : nat) (file : File) (originalUrl : ObjectURL)
    (err : JsError) :
    awaiting c !! n = Some (file, originalUrl) ->
    awaiting c' = delete n (awaiting c) ->
    processedImage (ui (sys c')) = processedImage (ui (sys c)) ->
    objectURLs (sys c') = objectURLs (sys c) ->
    nextURL (sys c') = nextURL (sys c) ->
    console (sys c') =
      (console (sys c) ++ [("Background removal failed:", err)])%list ->
    removeCalls (sys c') = removeCalls (sys c) ->
    downloads (sys c') = downloads (sys c) ->
    step_kind c c'.

(** What holds of the URL store throughout a session: its entries are the
    URLs handed out so far; a suspended invocation's URL is bound to its
    file; the held result's two URLs are bound to a file of the result's
    name and to a blob; every clicked link pointed at a blob; only files
    that passed the guards were handed to [removeBackground]; and URLs,
    logged failures and outstanding calls add up to two per call. *)
Definition store_inv (c : Config) : Prop :=
  (forall u, live u (sys c) <-> (u < nextURL (sys c))%nat) /\
  (forall file url,
     (file, url) ∈ awaiting c ->
     objectURLs (sys c) !! url = Some (OfFile file)) /\
  (forall p,
     processedImage (ui (sys c)) = Some p ->
     exists f b,
       objectURLs (sys c) !! original p = Some (OfFile f) /\
       file_name f = name p /\
       objectURLs (sys c) !! processed p = Some (OfBlob b)) /\
  (forall href fname,
     (href, fname) ∈ downloads (sys c) ->
     exists b, objectURLs (sys c) !! href = Some (OfBlob b)) /\
  (forall f, f ∈ removeCalls (sys c) -> refused f = false) /\
  (nextURL (sys c) + length (console (sys c)) + length (awaiting c) =
   2 * length (removeCalls (sys c)))%nat.

(** The configuration a list of events leads to from the first render;
    an event that is not accepted ends the session where it stands. *)
Fixpoint run_from (c : Config) (evs : list Event) : Config :=
  match evs with
  | [] => c
  | ev :: evs' =>
      match step c ev with
      | Some c' => run_from c' evs'
      | None => c
      end
  end.

Definition after (evs : list Event) : Config := run_from initial evs.

(** A failed upload, then a successful one that is downloaded. *)
Definition mixed_session : list Event :=
  [EvDragEnter; EvDrop [cat_jpg]; EvSettle 0 (Rejected model_error);
   EvChange [doc_pdf]; EvChange [dog_png]; EvSettle 0 (Fulfilled dog_cutout);
   EvClickDownload].

(** An upload that is still awaited. *)
Definition pending_session : list Event := [EvDragOver; EvDrop [cat_jpg]].

(** ** The file-name rewriting of [handleDownload] *)

Lemma all_chars_weaken (p q : ascii -> bool) (s : string) :
  (forall a, p a = true -> q a = true) ->
  all_chars p s = true -> all_chars q s = true.
Proof.
  intros Hpq. induction s as [|c s IH]; simpl; [reflexivity|].
  rewrite !andb_true_iff. intros [Hc Hs]. split; auto.
Qed.

Lemma not_slash_dot_spec (a : ascii) :
  not_slash_dot a = true <-> a <> "/"%char /\ a <> "."%char.
Proof.
  unfold not_slash_dot.
  rewrite andb_true_iff, !negb_true_iff, !Ascii.eqb_neq. tauto.
Qed.

(** A name made of class characters only has no dot to split at. *)
Lemma split_last_dot_class (s : string) :
  all_chars not_slash_dot s = true -> split_last_dot s = None.
Proof.
  induction s as [|c s IH]; simpl; [reflexivity|].
  rewrite andb_true_iff. intros [Hc Hs]. rewrite (IH Hs).
  apply not_slash_dot_spec in Hc as [_ Hdot].
  apply Ascii.eqb_neq in Hdot. now rewrite Hdot.
Qed.

(** A name with no dot to split at has no dot. *)
Lemma split_last_dot_None (s : string) :
  split_last_dot s = None ->
  all_chars (fun a => negb (Ascii.eqb a ".")) s = true.
Proof.
  induction s as [|c s IH]; simpl; [reflexivity|].
  destruct (split_last_dot s) as [[stem ext]|]; [discriminate|].
  destruct (Ascii.eqb c ".") eqn:Hc; [discriminate|].
  intros _. simpl. now apply IH.
Qed.

Lemma all_chars_class_split (s : string) :
  all_chars not_slash_dot s =
  all_chars (fun a => negb (Ascii.eqb a "/")) s &&
  all_chars (fun a => negb (Ascii.eqb a ".")) s.
Proof.
  induction s as [|c s IH]; simpl; [reflexivity|].
  rewrite IH. unfold not_slash_dot.
  destruct (Ascii.eqb c "/"), (Ascii.eqb c "."); simpl;
    try reflexivity; try (now rewrite andb_false_r);
    destruct (all_chars _ s); reflexivity.
Qed.

(** The regular expression strips exactly the final extension. *)
Lemma replace_extension_strip (s : string) :
  replace_extension s = strip_final_extension s.
Proof.
  induction s as [|c s IH]; [reflexivity|].
  cbn [replace_extension].
  destruct (ext_matches_here (String c s)) eqn:Hm.
  - (* the match starts at the first character *)
    unfold ext_matches_here in Hm.
    destruct (Ascii.eqb_spec c "."%char) as [->|Hne].
    2:{ destruct c as [[] [] [] [] [] [] [] []]; try discriminate.
        now contradiction Hne. }
    destruct s as [|d s]; [discriminate|].
    unfold strip_final_extension.
    change (split_last_dot (String "." (String d s))) with
      (match split_last_dot (String d s) with
       | Some (stem, ext) => Some (String "."%char stem, ext)
       | None => if Ascii.eqb "." "." then Some (EmptyString, String d s) else None
       end).
    rewrite (split_last_dot_class _ Hm). cbn.
    rewrite all_chars_class_split in Hm.
    apply andb_true_iff in Hm as [Hslash _].
    cbn in Hslash. now rewrite Hslash.
  - rewrite IH. unfold strip_final_extension. cbn [split_last_dot].
    destruct (split_last_dot s) as [[stem ext]|] eqn:Hs.
    + destruct ext as [|e ext]; [reflexivity|].
      now destruct (all_chars _ (String e ext)).
    + destruct (Ascii.eqb_spec c "."%char) as [->|Hne]; [|reflexivity].
      destruct s as [|d s]; [reflexivity|].
      unfold ext_matches_here in Hm.
      rewrite all_chars_class_split in Hm.
      rewrite (split_last_dot_None _ Hs), andb_true_r in Hm.
      now rewrite Hm.
Qed.

(** Splitting finds the last dot of [stem ++ "." ++ ext]. *)
Lemma split_last_dot_app (stem ext : string) :
  all_chars (fun a => negb (Ascii.eqb a ".")) ext = true ->
  split_last_dot (stem ++ String "." ext) = Some (stem, ext).
Proof.
  intros Hext. induction stem as [|c stem IH]; simpl.
  - assert (Hn : split_last_dot ext = None).
    { clear -Hext. induction ext as [|e ext IH]; simpl in *; [reflexivity|].
      apply andb_true_iff in Hext as [He Hext]. rewrite (IH Hext).
      apply negb_true_iff in He. now rewrite He. }
    now rewrite Hn.
  - now rewrite IH.
Qed.

Lemma replace_extension_app (stem ext : string) :
  ext <> EmptyString ->
  all_chars not_slash_dot ext = true ->
  replace_extension (stem ++ String "." ext) = stem.
Proof.
  intros Hne Hext. rewrite replace_extension_strip.
  rewrite all_chars_class_split in Hext.
  apply andb_true_iff in Hext as [Hslash Hdot].
  unfold strip_final_extension. rewrite (split_last_dot_app _ _ Hdot).
  destruct ext as [|e ext]; [congruence|]. now rewrite Hslash.
Qed.

Lemma replace_extension_no_dot (s : string) :
  all_chars (fun a => negb (Ascii.eqb a ".")) s = true ->
  replace_extension s = s.
Proof.
  induction s as [|c s IH]; [reflexivity|].
  simpl all_chars. rewrite andb_true_iff, negb_true_iff.
  intros [Hc Hs]. cbn [replace_extension].
  assert (Hm : ext_matches_here (String c s) = false).
  { unfold ext_matches_here.
    destruct c as [[] [] [] [] [] [] [] []]; try reflexivity; discriminate. }
  rewrite Hm. now rewrite IH.
Qed.

(** ** Download *)

(** [handleDownload] with a result held. *)
Lemma handleDownload_effect (s : Sys) (p : ProcessedImage) :
  processedImage (ui s) = Some p ->
  handleDownload s =
  (tt, mkSys (ui s) (objectURLs s) (nextURL s) (console s) (removeCalls s)
             (downloads s ++
              [(processed p,
                "bg-removed-" ++ replace_extension (name p) ++ ".png")])
             (fileInputRef s)).
Proof. intros Hp. unfold handleDownload. now rewrite Hp. Qed.

(** C7. With a result held, [handleDownload] clicks one link whose target is
    the processed reference and whose file name is [bg-removed-], the
    result's name with its final extension stripped, and [.png]; nothing
    else changes. *)
Theorem handleDownload_filename (s : Sys) (p : ProcessedImage) :
  processedImage (ui s) = Some p ->
  handleDownload s =
  (tt, mkSys (ui s) (objectURLs s) (nextURL s) (console s) (removeCalls s)
             (downloads s ++
              [(processed p,
                "bg-removed-" ++ strip_final_extension (name p) ++ ".png")])
             (fileInputRef s)).
Proof.
  intros Hp. rewrite (handleDownload_effect s p Hp).
  now rewrite replace_extension_strip.
Qed.

(** The result of [cat.jpg] downloads as [bg-removed-cat.png]. *)
Lemma handleDownload_filename_cat :
  downloads (exec handleDownload cat_result) =
  [(1%nat, "bg-removed-cat.png")].
Proof.
  unfold exec.
  rewrite (handleDownload_filename cat_result
             (mkProcessedImage 0%nat 1%nat "cat.jpg") eq_refl).
  reflexivity.
Defined.

(** Without a result [handleDownload] does nothing. *)
Lemma handleDownload_no_result (s : Sys) :
  processedImage (ui s) = None -> handleDownload s = (tt, s).
Proof. intros Hp. unfold handleDownload. now rewrite Hp. Qed.

(** ** Validation *)

Ltac unfold_handlers :=
  unfold exec, eval, handleFile, handleFile_resume, handleReset, handleDrop,
    handleFileInput, with_first_file, handleDrag, bind, ret, setError,
    setProcessing, setProcessedImage, setDragActive, createObjectURL,
    console_error, call_removeBackground, set_fileInputRef, modify_ui.

Lemma gtb_false_le (x y : Z) : (x >? y) = false <-> x <= y.
Proof. rewrite Z.gtb_ltb, Z.ltb_ge. reflexivity. Qed.

Lemma gtb_true_gt (x y : Z) : (x >? y) = true <-> x > y.
Proof. rewrite Z.gtb_ltb, Z.ltb_lt. lia. Qed.

(** The first guard of [handleFile]. *)
Lemma handleFile_not_image (file : File) (s : Sys) :
  startsWith (file_type file) "image/" = false ->
  handleFile file s =
  (Returned, exec (setError (Some "Please select a valid image file")) s).
Proof. intros H. unfold handleFile. rewrite H. reflexivity. Qed.

(** The second guard of [handleFile]. *)
Lemma handleFile_too_large (file : File) (s : Sys) :
  startsWith (file_type file) "image/" = true ->
  file_size file > 10 * 1024 * 1024 ->
  handleFile file s =
  (Returned, exec (setError (Some "File size must be less than 10MB")) s).
Proof.
  intros H Hsz. apply gtb_true_gt in Hsz.
  unfold handleFile. rewrite H, Hsz. reflexivity.
Qed.

(** Past both guards. *)
Lemma handleFile_accepted (file : File) (s : Sys) :
  startsWith (file_type file) "image/" = true ->
  file_size file <= 10 * 1024 * 1024 ->
  handleFile file s =
  (AwaitRemove file (nextURL s),
   mkSys (mkAppState (dragActive (ui s)) true (processedImage (ui s)) None)
         (<[nextURL s := OfFile file]> (objectURLs s)) (S (nextURL s))
         (console s) (removeCalls s ++ [file]) (downloads s)
         (fileInputRef s)).
Proof.
  intros H Hsz. apply gtb_false_le in Hsz.
  unfold handleFile. rewrite H, Hsz. reflexivity.
Qed.

(** C3. A file whose type does not start with [image/] gets the message
    "Please select a valid image file"; [handleFile] returns without
    reaching its [await], the processing flag and the rendered section are
    what they were, and [removeBackground] has not been called. *)
Theorem handleFile_invalid_type (file : File) (s : Sys) :
  startsWith (file_type file) "image/" = false ->
  eval (handleFile file) s = Returned /\
  error (ui (exec (handleFile file) s)) =
    Some "Please select a valid image file" /\
  processing (ui (exec (handleFile file) s)) = processing (ui s) /\
  view (ui (exec (handleFile file) s)) = view (ui s) /\
  removeCalls (exec (handleFile file) s) = removeCalls s.
Proof.
  intros H. unfold eval, exec at 1 2 3 4.
  rewrite (handleFile_not_image file s H). repeat split.
Qed.

Lemma handleFile_invalid_type_doc_pdf :
  eval (handleFile doc_pdf) (sys initial) = Returned /\
  error (ui (exec (handleFile doc_pdf) (sys initial))) =
    Some "Please select a valid image file" /\
  processing (ui (exec (handleFile doc_pdf) (sys initial))) = false /\
  view (ui (exec (handleFile doc_pdf) (sys initial))) = UploadSection /\
  removeCalls (exec (handleFile doc_pdf) (sys initial)) = [].
Proof. exact (handleFile_invalid_type doc_pdf (sys initial) eq_refl). Defined.

(** C4. For an image-typed file: above 10 MiB it gets the size message and
    [handleFile] returns with no external call made and the processing flag
    untouched; at 10 MiB or below the size guard lets it through and the
    file is dispatched. *)
Theorem handleFile_size_limit (file : File) (s : Sys) :
  startsWith (file_type file) "image/" = true ->
  (file_size file > 10 * 1024 * 1024 ->
   eval (handleFile file) s = Returned /\
   error (ui (exec (handleFile file) s)) =
     Some "File size must be less than 10MB" /\
   processing (ui (exec (handleFile file) s)) = processing (ui s) /\
   removeCalls (exec (handleFile file) s) = removeCalls s) /\
  (file_size file <= 10 * 1024 * 1024 ->
   eval (handleFile file) s = AwaitRemove file (nextURL s) /\
   error (ui (exec (handleFile file) s)) = None /\
   removeCalls (exec (handleFile file) s) = (removeCalls s ++ [file])%list).
Proof.
  intros H. split; intros Hsz; unfold eval, exec.
  - rewrite (handleFile_too_large file s H Hsz). repeat split.
  - rewrite (handleFile_accepted file s H Hsz). repeat split.
Qed.

Lemma handleFile_size_limit_samples :
  error (ui (exec (handleFile big_png) (sys initial))) =
    Some "File size must be less than 10MB" /\
  eval (handleFile limit_png) (sys initial) = AwaitRemove limit_png 0%nat.
Proof.
  split.
  - apply (handleFile_size_limit big_png (sys initial) eq_refl).
    reflexivity.
  - apply (handleFile_size_limit limit_png (sys initial) eq_refl).
    discriminate.
Defined.

(** C9. The type is checked before the size: a file that is neither an image
    nor within the limit gets the type message, not the size message. *)
Theorem handleFile_type_before_size (file : File) (s : Sys) :
  startsWith (file_type file) "image/" = false ->
  file_size file > 10 * 1024 * 1024 ->
  error (ui (exec (handleFile file) s)) =
    Some "Please select a valid image file" /\
  error (ui (exec (handleFile file) s)) <>
    Some "File size must be less than 10MB".
Proof.
  intros H _. unfold exec. rewrite (handleFile_not_image file s H).
  split; [reflexivity|discriminate].
Qed.

Lemma handleFile_type_before_size_big_pdf :
  error (ui (exec (handleFile big_pdf) (sys initial))) =
    Some "Please select a valid image file" /\
  error (ui (exec (handleFile big_pdf) (sys initial))) <>
    Some "File size must be less than 10MB".
Proof.
  apply (handleFile_type_before_size big_pdf (sys initial) eq_refl).
  reflexivity.
Defined.

(** C10. When a file fails either guard, [handleFile] returns at once and
    the state it leaves differs from the one it found in the error message
    only: the dragging flag, the processing flag, the result, the file input
    and the browser-side state are the same. *)
Theorem handleFile_refused_frame (file : File) (s : Sys) :
  startsWith (file_type file) "image/" = false \/
  file_size file > 10 * 1024 * 1024 ->
  exists msg,
    (msg = "Please select a valid image file" \/
     msg = "File size must be less than 10MB") /\
    handleFile file s =
    (Returned,
     mkSys (mkAppState (dragActive (ui s)) (processing (ui s))
                       (processedImage (ui s)) (Some msg))
           (objectURLs s) (nextURL s) (console s) (removeCalls s)
           (downloads s) (fileInputRef s)).
Proof.
  intros Hbad.
  destruct (startsWith (file_type file) "image/") eqn:Hty.
  - destruct Hbad as [Hbad|Hsz]; [discriminate|].
    eexists. split; [right; reflexivity|].
    rewrite (handleFile_too_large file s Hty Hsz). reflexivity.
  - eexists. split; [left; reflexivity|].
    rewrite (handleFile_not_image file s Hty). reflexivity.
Qed.

Lemma handleFile_refused_frame_big_png :
  exists msg,
    (msg = "Please select a valid image file" \/
     msg = "File size must be less than 10MB") /\
    handleFile big_png cat_result =
    (Returned,
     mkSys (mkAppState false false
              (Some (mkProcessedImage 0%nat 1%nat "cat.jpg")) (Some msg))
           (objectURLs cat_result) 2 [] [cat_jpg] [] None).
Proof.
  apply (handleFile_refused_frame big_png cat_result).
  right. reflexivity.
Defined.

(** ** Dispatch and completion *)

Ltac project_fields :=
  cbn [fst snd ui objectURLs nextURL console removeCalls downloads
       fileInputRef dragActive processing processedImage error].

(** The [try] block after a fulfilled call, then [finally], in any state. *)
Lemma handleFile_resume_fulfilled (file : File) (originalUrl : ObjectURL)
    (imageBlob : Blob) (s : Sys) :
  handleFile_resume file originalUrl (Fulfilled imageBlob) s =
  (tt,
   mkSys (mkAppState (dragActive (ui s)) false
            (Some (mkProcessedImage originalUrl (nextURL s) (file_name file)))
            (error (ui s)))
         (<[nextURL s := OfBlob imageBlob]> (objectURLs s)) (S (nextURL s))
         (console s) (removeCalls s) (downloads s) (fileInputRef s)).
Proof. reflexivity. Qed.

Lemma view_processing (u : AppState) :
  processing u = true -> view u = ProcessingSection.
Proof.
  intros H. unfold view. rewrite H, andb_false_r. reflexivity.
Qed.

Lemma view_upload (u : AppState) :
  view u = UploadSection <-> processedImage u = None /\ processing u = false.
Proof.
  unfold view. destruct (processedImage u) as [p|], (processing u); simpl;
    split; try discriminate; try tauto; intros [? ?]; discriminate.
Qed.

Lemma view_results (u : AppState) :
  view u = ResultsSection <->
  is_Some (processedImage u) /\ processing u = false.
Proof.
  unfold view. destruct (processedImage u) as [p|], (processing u); simpl;
    split; try discriminate; try (intros [[? ?] ?]; discriminate);
    eauto.
Qed.

(** C5. A file that passes both guards is dispatched: [handleFile] stops at
    its [await] with the processing section showing and the error cleared,
    having registered one object URL for the file and called
    [removeBackground] once, on that file. When that call is fulfilled, the
    one result holds the original URL, a second URL registered for the
    returned blob and the file's name; the results section shows, and no
    further call has been made. *)
Theorem handleFile_dispatch (file : File) (imageBlob : Blob) (s : Sys) :
  startsWith (file_type file) "image/" = true ->
  file_size file <= 10 * 1024 * 1024 ->
  let originalUrl := nextURL s in
  let processedUrl := S (nextURL s) in
  let s1 := exec (handleFile file) s in
  let s2 :=
    exec (handleFile_resume file originalUrl (Fulfilled imageBlob)) s1 in
  eval (handleFile file) s = AwaitRemove file originalUrl /\
  processing (ui s1) = true /\
  view (ui s1) = ProcessingSection /\
  error (ui s1) = None /\
  objectURLs s1 = <[originalUrl := OfFile file]> (objectURLs s) /\
  removeCalls s1 = (removeCalls s ++ [file])%list /\
  processedImage (ui s2) =
    Some (mkProcessedImage originalUrl processedUrl (file_name file)) /\
  processing (ui s2) = false /\
  view (ui s2) = ResultsSection /\
  objectURLs s2 !! originalUrl = Some (OfFile file) /\
  objectURLs s2 !! processedUrl = Some (OfBlob imageBlob) /\
  removeCalls s2 = (removeCalls s ++ [file])%list.
Proof.
  intros Hty Hsz. cbv zeta. unfold eval, exec.
  rewrite (handleFile_accepted file s Hty Hsz).
  rewrite handleFile_resume_fulfilled. project_fields.
  repeat split.
  - now apply view_processing.
  - rewrite lookup_insert_ne by lia. apply lookup_insert_eq.
  - apply lookup_insert_eq.
Qed.

Lemma handleFile_dispatch_cat :
  eval (handleFile cat_jpg) (sys initial) = AwaitRemove cat_jpg 0%nat /\
  exec (handleFile cat_jpg) (sys initial) =
    exec (set_fileInputRef (Some "")) cat_awaited /\
  processedImage
    (ui (exec (handleFile_resume cat_jpg 0%nat (Fulfilled cat_cutout))
           (exec (handleFile cat_jpg) (sys initial)))) =
    Some (mkProcessedImage 0%nat 1%nat "cat.jpg") /\
  view
    (ui (exec (handleFile_resume cat_jpg 0%nat (Fulfilled cat_cutout))
           (exec (handleFile cat_jpg) (sys initial)))) = ResultsSection.
Proof.
  pose proof (handleFile_dispatch cat_jpg cat_cutout (sys initial) eq_refl)
    as H.
  cbv zeta in H.
  destruct H as (H1 & _ & _ & _ & _ & _ & H7 & _ & H9 & _).
  { discriminate. }
  split; [exact H1|]. split; [reflexivity|]. split; [exact H7|exact H9].
Defined.

(** ** Failure of the external call *)

(** C6. When the external call is rejected or throws, the rest of
    [handleFile] logs the error under "Background removal failed:", sets the
    fixed message and lowers the processing flag, so the banner shows that
    message; it builds no result, registers no URL, does not call
    [removeBackground] again and then is finished. *)
Theorem handleFile_resume_failure (file : File) (originalUrl : ObjectURL)
    (o : Outcome) (err : JsError) (s : Sys) :
  o = Rejected err \/ o = Threw err ->
  handleFile_resume file originalUrl o s =
  (tt,
   mkSys (mkAppState (dragActive (ui s)) false (processedImage (ui s))
            (Some "Failed to remove background. Please try again with a different image."))
         (objectURLs s) (nextURL s)
         (console s ++ [("Background removal failed:", err)])
         (removeCalls s) (downloads s) (fileInputRef s)) /\
  errorBanner (ui (exec (handleFile_resume file originalUrl o) s)) =
    Some "Failed to remove background. Please try again with a different image.".
Proof.
  intros [-> | ->]; split; reflexivity.
Qed.

Lemma handleFile_resume_failure_cat :
  handleFile_resume cat_jpg 0%nat (Rejected model_error) cat_awaited =
  (tt,
   mkSys (mkAppState false false None
            (Some "Failed to remove background. Please try again with a different image."))
         (objectURLs cat_awaited) 1
         [("Background removal failed:", model_error)]
         [cat_jpg] [] None).
Proof.
  apply (handleFile_resume_failure cat_jpg 0%nat (Rejected model_error)
           model_error cat_awaited).
  left. reflexivity.
Defined.

(** ** Reset and the lifetime of object URLs *)

(** [handleReset], in any state. *)
Lemma handleReset_effect (s : Sys) :
  handleReset s =
  (tt,
   mkSys (mkAppState (dragActive (ui s)) false None None)
         (objectURLs s) (nextURL s) (console s) (removeCalls s) (downloads s)
         (match fileInputRef s with Some _ => Some "" | None => None end)).
Proof. unfold_handlers. cbn. destruct (fileInputRef s); reflexivity. Qed.

(** Registering a URL removes no entry of the store. *)
Lemma createObjectURL_keeps_live (obj : BlobSource) (s : Sys) (u : ObjectURL) :
  live u s -> live u (exec (createObjectURL obj) s).
Proof.
  unfold live, exec, createObjectURL. project_fields. intros Hu.
  destruct (decide (nextURL s = u)) as [->|Hne].
  - rewrite lookup_insert_eq. eauto.
  - now rewrite lookup_insert_ne.
Qed.

Lemma first_session_result :
  run first_session initial = Some (mkConfig cat_result []).
Proof. vm_compute. reflexivity. Qed.

Lemma second_session_result :
  run second_session initial = Some (mkConfig dog_result []).
Proof. vm_compute. reflexivity. Qed.

(** C1, as stated, fails: resetting the result of [first_session] leaves
    both of its object URLs in the store. *)
Lemma handleReset_does_not_release : ~ reset_releases cat_result.
Proof.
  intros H.
  destruct (H (mkProcessedImage 0%nat 1%nat "cat.jpg") eq_refl) as [H0 _].
  vm_compute in H0. discriminate H0.
Qed.

(** C1, amended. In any state [handleReset] leaves no result held, the
    processing flag down and the error cleared, so the upload section shows
    with no banner, and it empties the file input if one is mounted; the URL
    store is left as it was, so nothing is released. *)
Theorem handleReset_returns_to_idle (s : Sys) :
  handleReset s =
  (tt,
   mkSys (mkAppState (dragActive (ui s)) false None None)
         (objectURLs s) (nextURL s) (console s) (removeCalls s) (downloads s)
         (match fileInputRef s with Some _ => Some "" | None => None end)) /\
  view (ui (exec handleReset s)) = UploadSection /\
  errorBanner (ui (exec handleReset s)) = None /\
  objectURLs (exec handleReset s) = objectURLs s.
Proof.
  split; [apply handleReset_effect|].
  unfold exec. rewrite handleReset_effect. repeat split.
Qed.

(** C2, as stated, fails: at the end of [second_session] the second result
    is held and the two object URLs of the first are still in the store. *)
Lemma second_upload_does_not_release : ~ releases_superseded second_session.
Proof.
  intros H.
  destruct (H first_session
              [EvClickReset; EvChange [dog_png];
               EvSettle 0 (Fulfilled dog_cutout)]
              (mkConfig cat_result []) (mkConfig dog_result [])
              (mkProcessedImage 0%nat 1%nat "cat.jpg")
              eq_refl first_session_result eq_refl second_session_result)
    as [H0 _].
  - discriminate.
  - vm_compute in H0. discriminate H0.
Qed.

(** C2, amended. The state holds at most one result, and a fulfilled call
    puts the new one in the place of whatever was held; the upload only adds
    to the URL store, so every reference that was live before it, those of
    the previous result included, is live while the call is awaited and after
    the new result is stored. *)
Theorem handleFile_supersedes_without_release
    (file : File) (imageBlob : Blob) (s : Sys) :
  startsWith (file_type file) "image/" = true ->
  file_size file <= 10 * 1024 * 1024 ->
  let s1 := exec (handleFile file) s in
  let s2 :=
    exec (handleFile_resume file (nextURL s) (Fulfilled imageBlob)) s1 in
  processedImage (ui s2) =
    Some (mkProcessedImage (nextURL s) (S (nextURL s)) (file_name file)) /\
  objectURLs s2 =
    <[S (nextURL s) := OfBlob imageBlob]>
      (<[nextURL s := OfFile file]> (objectURLs s)) /\
  forall u, live u s -> live u s1 /\ live u s2.
Proof.
  intros Hty Hsz. cbv zeta. unfold exec.
  rewrite (handleFile_accepted file s Hty Hsz).
  rewrite handleFile_resume_fulfilled. project_fields.
  split; [reflexivity|]. split; [reflexivity|].
  intros u Hu.
  pose proof (createObjectURL_keeps_live (OfFile file) s u Hu) as H1.
  split; [exact H1|].
  exact (createObjectURL_keeps_live (OfBlob imageBlob) _ u H1).
Qed.

Lemma handleFile_supersedes_without_release_dog :
  let s2 :=
    exec (handleFile_resume dog_png 2%nat (Fulfilled dog_cutout))
      (exec (handleFile dog_png) cat_result) in
  processedImage (ui s2) = Some (mkProcessedImage 2%nat 3%nat "dog.png") /\
  live 0%nat s2 /\ live 1%nat s2.
Proof.
  pose proof (handleFile_supersedes_without_release dog_png dog_cutout
                cat_result eq_refl) as H.
  cbv zeta in H. destruct H as (Hp & _ & Hlive); [discriminate|].
  cbv zeta. split; [exact Hp|]. split.
  - apply Hlive. vm_compute. eauto.
  - apply Hlive. vm_compute. eauto.
Defined.

(** ** The intake state machine *)

Lemma ui_commit (s : Sys) : ui (commit s) = ui s.
Proof.
  unfold commit. destruct (view (ui s)), (fileInputRef s); reflexivity.
Qed.

Lemma in_view_true (v : View) (c : Config) :
  in_view v c = true <-> view (ui (sys c)) = v.
Proof.
  unfold in_view. destruct (view (ui (sys c))), v; split;
    congruence || discriminate.
Qed.

(** The two ways [handleFile] can go. *)
Lemma handleFile_cases (file : File) (s : Sys) :
  (refused file = true /\
   exists c msg,
     handleFile file s = (Returned, exec (setError (Some (String c msg))) s)) \/
  (refused file = false /\
   handleFile file s =
   (AwaitRemove file (nextURL s),
    mkSys (mkAppState (dragActive (ui s)) true (processedImage (ui s)) None)
          (<[nextURL s := OfFile file]> (objectURLs s)) (S (nextURL s))
          (console s) (removeCalls s ++ [file]) (downloads s)
          (fileInputRef s))).
Proof.
  unfold refused, handleFile.
  destruct (startsWith (file_type file) "image/"); cbn [negb orb].
  - destruct (file_size file >? 10 * 1024 * 1024).
    + left. split; [reflexivity|]. eexists _, _. reflexivity.
    + right. split; reflexivity.
  - left. split; [reflexivity|]. eexists _, _. reflexivity.
Qed.

Lemma handleDrag_ui (type : string) (s : Sys) :
  processing (ui (exec (handleDrag type) s)) = processing (ui s) /\
  processedImage (ui (exec (handleDrag type) s)) = processedImage (ui s) /\
  error (ui (exec (handleDrag type) s)) = error (ui s).
Proof.
  unfold handleDrag.
  destruct (String.eqb type "dragenter" || String.eqb type "dragover");
    [repeat split|].
  destruct (String.eqb type "dragleave"); repeat split.
Qed.

(** What an intake does to the configuration, by the two ways of
    [handleFile]; [s] is the state [handleFile] starts in. *)
Lemma run_intake_handleFile (m : M Suspension) (file : File) (c : Config)
    (s : Sys) :
  m (sys c) = handleFile file s ->
  ui s = ui (sys c) \/
  ui s = mkAppState false (processing (ui (sys c)))
           (processedImage (ui (sys c))) (error (ui (sys c))) ->
  (refused file = true /\
   awaiting (run_intake m c) = awaiting c /\
   processing (ui (sys (run_intake m c))) = processing (ui (sys c)) /\
   processedImage (ui (sys (run_intake m c))) = processedImage (ui (sys c)) /\
   is_Some (errorBanner (ui (sys (run_intake m c))))) \/
  (refused file = false /\
   awaiting (run_intake m c) = (awaiting c ++ [(file, nextURL s)])%list /\
   processing (ui (sys (run_intake m c))) = true /\
   processedImage (ui (sys (run_intake m c))) = processedImage (ui (sys c))).
Proof.
  intros Hm Hui. unfold run_intake. rewrite Hm.
  destruct (handleFile_cases file s) as [(Hr & a & msg & E)|(Hr & E)];
    rewrite E; [left|right]; (split; [exact Hr|]);
    cbn [awaiting sys suspend]; rewrite ui_commit;
    unfold exec, setError, modify_ui; project_fields;
    destruct Hui as [-> | ->]; project_fields; repeat split; eauto.
Qed.

Lemma step_preserves_intake_inv (c c' : Config) (ev : Event) :
  intake_inv c -> step c ev = Some c' -> intake_inv c'.
Proof.
  intros Hinv Hstep.
  assert (Hidle : in_view UploadSection c = true ->
                  awaiting c = [] /\ processing (ui (sys c)) = false /\
                  processedImage (ui (sys c)) = None).
  { intros Hv. apply in_view_true, view_upload in Hv as [Hp Hq].
    destruct Hinv as [[Ha _]|(k & _ & Hk & _)]; [auto|congruence]. }
  assert (Hdrag : forall type,
             in_view UploadSection c = true ->
             intake_inv (run_unit (handleDrag type) c)).
  { intros type Hv. destruct (Hidle Hv) as (Ha & Hp & _).
    left. unfold run_unit. cbn [awaiting sys]. rewrite ui_commit.
    destruct (handleDrag_ui type (sys c)) as (-> & _). auto. }
  assert (Hintake : forall m file s,
             in_view UploadSection c = true ->
             m (sys c) = handleFile file s ->
             ui s = ui (sys c) \/
             ui s = mkAppState false (processing (ui (sys c)))
                      (processedImage (ui (sys c))) (error (ui (sys c))) ->
             intake_inv (run_intake m c)).
  { intros m file s Hv Hm Hui. destruct (Hidle Hv) as (Ha & Hp & Hq).
    unfold intake_inv.
    destruct (run_intake_handleFile m file c s Hm Hui)
      as [(_ & -> & -> & _)|(_ & -> & -> & ->)].
    - left. auto.
    - right. rewrite Ha. eexists. eauto. }
  assert (Hnone : forall m,
             in_view UploadSection c = true ->
             m (sys c) = (Returned, sys c) \/
             m (sys c) = (Returned, exec (setDragActive false) (sys c)) \/
             (exists v, m (sys c) =
                        (Returned, exec (set_fileInputRef v) (sys c))) ->
             intake_inv (run_intake m c)).
  { intros m Hv Hm. destruct (Hidle Hv) as (Ha & Hp & _).
    left. unfold run_intake.
    destruct Hm as [-> | [-> | [v ->]]]; cbn [awaiting sys suspend];
      rewrite ui_commit; auto. }
  destruct ev as [| | |files|files|n o| |]; cbn [step] in Hstep.
  - destruct (in_view UploadSection c) eqn:Hv; [|discriminate].
    injection Hstep as <-. now apply Hdrag.
  - destruct (in_view UploadSection c) eqn:Hv; [|discriminate].
    injection Hstep as <-. now apply Hdrag.
  - destruct (in_view UploadSection c) eqn:Hv; [|discriminate].
    injection Hstep as <-. now apply Hdrag.
  - destruct (in_view UploadSection c) eqn:Hv; [|discriminate].
    injection Hstep as <-. destruct files as [|file rest].
    + apply Hnone; [reflexivity|]. right. left. reflexivity.
    + apply (Hintake _ file (exec (setDragActive false) (sys c)));
        [reflexivity|reflexivity|]. right. reflexivity.
  - destruct (in_view UploadSection c) eqn:Hv; [|discriminate].
    injection Hstep as <-. destruct files as [|file rest].
    + apply Hnone; [reflexivity|]. right. right. eexists. reflexivity.
    + apply (Hintake _ file
               (exec (set_fileInputRef (Some (input_value (file :: rest))))
                  (sys c)));
        [reflexivity|reflexivity|]. left. reflexivity.
  - destruct (awaiting c !! n) as [[file originalUrl]|] eqn:Hn;
      [|discriminate].
    injection Hstep as <-.
    destruct Hinv as [[Ha _]|(k & Ha & _ & _)]; rewrite Ha in Hn.
    + destruct n; discriminate.
    + destruct n as [|n]; [|destruct n; discriminate].
      left. cbn [awaiting sys]. rewrite Ha, ui_commit.
      split; [reflexivity|]. destruct o; reflexivity.
  - destruct (in_view ResultsSection c) eqn:Hv; [|discriminate].
    injection Hstep as <-.
    apply in_view_true, view_results in Hv as [[p Hp] Hq].
    destruct Hinv as [[Ha _]|(k & _ & Hk & _)]; [|congruence].
    left. unfold run_unit. cbn [awaiting sys]. rewrite ui_commit.
    split; [exact Ha|]. unfold exec.
    rewrite (handleDownload_effect _ p Hp). exact Hq.
  - destruct (in_view ResultsSection c) eqn:Hv; [|discriminate].
    injection Hstep as <-.
    apply in_view_true, view_results in Hv as [_ Hq].
    destruct Hinv as [[Ha _]|(k & _ & Hk & _)]; [|congruence].
    left. unfold run_unit. cbn [awaiting sys]. rewrite ui_commit.
    split; [exact Ha|].
    unfold exec. rewrite handleReset_effect. reflexivity.
Qed.

Lemma reachable_intake_inv (c : Config) : reachable c -> intake_inv c.
Proof.
  induction 1 as [|c ev c' _ IH Hstep].
  - left. split; reflexivity.
  - exact (step_preserves_intake_inv c c' ev IH Hstep).
Qed.

(** A call that fails is the only one outstanding, and it leaves the upload
    section with its banner and no result. *)
Lemma settle_failure (c c' : Config) (n : nat) (o : Outcome) :
  intake_inv c ->
  step c (EvSettle n o) = Some c' ->
  is_error_event (EvSettle n o) = true ->
  awaiting c' = [] /\
  processing (ui (sys c')) = false /\
  processedImage (ui (sys c')) = None /\
  is_Some (errorBanner (ui (sys c'))).
Proof.
  intros Hinv Hstep Herr. cbn [step] in Hstep.
  destruct (awaiting c !! n) as [[file originalUrl]|] eqn:Hn; [|discriminate].
  injection Hstep as <-.
  destruct Hinv as [[Ha _]|(k & Ha & _ & Hq)]; rewrite Ha in Hn.
  { destruct n; discriminate. }
  destruct n as [|n]; [|destruct n; discriminate].
  cbn [awaiting sys]. rewrite Ha, ui_commit.
  destruct o as [b|err|err]; [discriminate Herr| |];
    (split; [reflexivity|]); (split; [reflexivity|]);
    (split; [exact Hq|]); eexists; reflexivity.
Qed.

(** A refused file leaves the upload section in place, with its banner. *)
Lemma intake_refused (m : M Suspension) (file : File) (c : Config) (s : Sys) :
  intake_inv c ->
  in_view UploadSection c = true ->
  m (sys c) = handleFile file s ->
  ui s = ui (sys c) \/
  ui s = mkAppState false (processing (ui (sys c)))
           (processedImage (ui (sys c))) (error (ui (sys c))) ->
  refused file = true ->
  awaiting (run_intake m c) = [] /\
  processing (ui (sys (run_intake m c))) = false /\
  processedImage (ui (sys (run_intake m c))) = None /\
  is_Some (errorBanner (ui (sys (run_intake m c)))).
Proof.
  intros Hinv Hv Hm Hui Hr.
  apply in_view_true, view_upload in Hv as [Hp Hq].
  assert (Ha : awaiting c = []).
  { destruct Hinv as [[Ha _]|(k & _ & Hk & _)]; [auto|congruence]. }
  destruct (run_intake_handleFile m file c s Hm Hui)
    as [(_ & -> & -> & -> & Hb)|(Hr' & _)]; [auto|congruence].
Qed.

(** ** No error is fatal *)

(** C8. In a session of the page, whenever a step is an error (the first
    file dropped or selected is refused for its type or its size, or the
    awaited external call is rejected or throws), the state it ends in has
    the processing flag down, no result held and no call outstanding: the
    upload section is rendered with the error banner, and a selection or a
    drop of files is accepted there as the very next event. *)
Theorem no_error_is_fatal (c c' : Config) (ev : Event) :
  reachable c ->
  step c ev = Some c' ->
  is_error_event ev = true ->
  processing (ui (sys c')) = false /\
  processedImage (ui (sys c')) = None /\
  awaiting c' = [] /\
  view (ui (sys c')) = UploadSection /\
  is_Some (errorBanner (ui (sys c'))) /\
  forall files,
    is_Some (step c' (EvChange files)) /\ is_Some (step c' (EvDrop files)).
Proof.
  intros Hreach Hstep Herr.
  pose proof (reachable_intake_inv c Hreach) as Hinv.
  assert (Hcore : awaiting c' = [] /\
                  processing (ui (sys c')) = false /\
                  processedImage (ui (sys c')) = None /\
                  is_Some (errorBanner (ui (sys c')))).
  { destruct ev as [| | |files|files|n o| |]; try discriminate Herr.
    - destruct files as [|file rest]; [discriminate Herr|].
      cbn [step] in Hstep. cbn [is_error_event] in Herr.
      destruct (in_view UploadSection c) eqn:Hv; [|discriminate].
      injection Hstep as <-.
      apply (intake_refused _ file c (exec (setDragActive false) (sys c)));
        auto.
    - destruct files as [|file rest]; [discriminate Herr|].
      cbn [step] in Hstep. cbn [is_error_event] in Herr.
      destruct (in_view UploadSection c) eqn:Hv; [|discriminate].
      injection Hstep as <-.
      apply (intake_refused _ file c
               (exec (set_fileInputRef (Some (input_value (file :: rest))))
                  (sys c)));
        auto.
    - exact (settle_failure c c' n o Hinv Hstep Herr). }
  destruct Hcore as (Ha & Hp & Hq & Hb).
  assert (Hv : view (ui (sys c')) = UploadSection).
  { apply view_upload. auto. }
  repeat (split; [assumption|]).
  intros files. apply in_view_true in Hv. cbn [step]. rewrite Hv.
  split; eexists; reflexivity.
Qed.

Lemma no_error_is_fatal_doc_pdf :
  exists c',
    step initial (EvChange [doc_pdf]) = Some c' /\
    view (ui (sys c')) = UploadSection /\
    errorBanner (ui (sys c')) = Some "Please select a valid image file" /\
    is_Some (step c' (EvChange [cat_jpg])).
Proof.
  destruct (step initial (EvChange [doc_pdf])) as [c'|] eqn:Hstep;
    [|discriminate Hstep].
  exists c'.
  destruct (no_error_is_fatal initial c' (EvChange [doc_pdf])
              reachable_initial Hstep eq_refl)
    as (_ & _ & _ & Hv & _ & Hnext).
  split; [reflexivity|]. split; [exact Hv|].
  split; [|exact (proj1 (Hnext [cat_jpg]))].
  injection Hstep as <-. reflexivity.
Defined.

(** ** Further checks *)

(** The pattern takes the last extension only, wants at least one character
    after the dot, and treats a leading dot like any other. *)
Example replace_extension_samples :
  replace_extension "cat.jpg" = "cat" /\
  replace_extension "archive.tar.gz" = "archive.tar" /\
  replace_extension "README" = "README" /\
  replace_extension "cat." = "cat." /\
  replace_extension ".bashrc" = "".
Proof. repeat split. Qed.

(** After "Process Another Image" the upload section is back with an empty
    file input, whether or not one was mounted when the button was
    clicked. *)
Lemma click_reset_fresh_input (c c' : Config) :
  step c EvClickReset = Some c' ->
  view (ui (sys c')) = UploadSection /\ fileInputRef (sys c') = Some "".
Proof.
  cbn [step]. destruct (in_view ResultsSection c); [|discriminate].
  intros [= <-]. unfold run_unit. cbn [sys]. rewrite ui_commit.
  unfold commit, exec. rewrite handleReset_effect. project_fields.
  split; [reflexivity|].
  change (view (mkAppState (dragActive (ui (sys c))) false None None))
    with UploadSection.
  destruct (fileInputRef (sys c)); reflexivity.
Qed.

(** The whole of [second_session] is a session of the page. *)
Lemma run_reachable (evs : list Event) (c c' : Config) :
  reachable c -> run evs c = Some c' -> reachable c'.
Proof.
  revert c. induction evs as [|ev evs IH]; intros c Hc; cbn [run].
  - intros [= <-]. exact Hc.
  - destruct (step c ev) as [c1|] eqn:Hstep; [|discriminate].
    apply IH. exact (reachable_step c ev c1 Hc Hstep).
Qed.

Lemma dog_result_reachable : reachable (mkConfig dog_result []).
Proof.
  exact (run_reachable second_session initial _ reachable_initial
           second_session_result).
Qed.

(** ** Drag and drop *)

(** X13. A recognised drag event sets the dragging flag to what its type says
    and touches nothing else, so of two drag events in a row only the second
    shows. *)
Theorem handleDrag_last_event_wins (type type' : string) (s : Sys) :
  type = "dragenter" \/ type = "dragover" \/ type = "dragleave" ->
  exec (handleDrag type) s =
    exec (setDragActive (negb (String.eqb type "dragleave"))) s /\
  exec (handleDrag type) (exec (handleDrag type') s) = exec (handleDrag type) s.
Proof.
  intros [-> | [-> | ->]]; (split; [reflexivity|]);
    unfold handleDrag at 2;
    destruct (String.eqb type' "dragenter" || String.eqb type' "dragover");
    try reflexivity;
    destruct (String.eqb type' "dragleave"); reflexivity.
Qed.

Lemma handleDrag_last_event_wins_leave :
  dragActive (ui (exec (handleDrag "dragleave")
                    (exec (handleDrag "dragenter") cat_result))) = false /\
  exec (handleDrag "dragleave") (exec (handleDrag "dragenter") cat_result) =
  cat_result.
Proof.
  destruct (handleDrag_last_event_wins "dragleave" "dragenter" cat_result)
    as [_ H]; [right; right; reflexivity|].
  rewrite H. split; reflexivity.
Defined.

(** X1. A drop is a selection that also lowers the dragging flag: on any list
    of files and in any state, [handleDrop] suspends or returns exactly as
    [handleFileInput] does, and the state it leaves is the one
    [handleFileInput] leaves with the flag down. *)
Theorem handleDrop_as_handleFileInput (files : list File) (s : Sys) :
  eval (handleDrop files) s = eval (handleFileInput files) s /\
  exec (handleDrop files) s =
    exec (setDragActive false) (exec (handleFileInput files) s) /\
  dragActive (ui (exec (handleDrop files) s)) = false.
Proof.
  destruct files as [|file rest]; [repeat split|].
  unfold handleDrop, handleFileInput, with_first_file, handleFile, eval, exec,
    bind.
  cbn [setDragActive modify_ui].
  destruct (startsWith (file_type file) "image/"); [|repeat split].
  destruct (file_size file >? 10 * 1024 * 1024); repeat split.
Qed.

(** ** Which files are accepted *)

Lemma startsWith_spec (s p : string) :
  startsWith s p = true <-> exists rest, s = p ++ rest.
Proof.
  revert s. induction p as [|c p IH]; intros s.
  - split; [intros _; exists s; reflexivity|].
    intros _. destruct s; reflexivity.
  - destruct s as [|d s]; cbn [startsWith].
    + split; [discriminate|intros [rest H]; discriminate H].
    + destruct (Ascii.eqb c d) eqn:E.
      * apply Ascii.eqb_eq in E as ->.
        rewrite IH. split; intros [rest H]; exists rest.
        -- cbn. now rewrite H.
        -- cbn in H. now injection H.
      * apply Ascii.eqb_neq in E.
        split; [discriminate|]. intros [rest H]. cbn in H.
        injection H as H1 _. congruence.
Qed.

(** X2. [handleFile] goes as far as the external call exactly for the files
    whose type is [image/] followed by anything (nothing included) and whose
    size is at most 10485760; for every other file it returns at once. *)
Theorem handleFile_accepts_iff (file : File) (s : Sys) :
  (eval (handleFile file) s = AwaitRemove file (nextURL s) <->
   (exists subtype, file_type file = "image/" ++ subtype) /\
   file_size file <= 10485760) /\
  (eval (handleFile file) s = Returned <->
   ~ ((exists subtype, file_type file = "image/" ++ subtype) /\
      file_size file <= 10485760)).
Proof.
  rewrite <- startsWith_spec.
  change 10485760 with (10 * 1024 * 1024).
  destruct (startsWith (file_type file) "image/") eqn:Hty.
  - destruct (Z_le_gt_dec (file_size file) (10 * 1024 * 1024)) as [Hle|Hgt].
    + unfold eval. rewrite (handleFile_accepted file s Hty Hle). cbn [fst].
      split; split; intuition (first [discriminate | lia | reflexivity]).
    + unfold eval. rewrite (handleFile_too_large file s Hty Hgt). cbn [fst].
      split; split; intuition (first [discriminate | lia | reflexivity]).
  - unfold eval. rewrite (handleFile_not_image file s Hty). cbn [fst].
    split; split; intuition (first [discriminate | lia | reflexivity]).
Qed.

(** ** A failed upload, from start to end *)

(** X3. When a file passes the guards and its external call then fails, the
    state left behind still has the object URL that was registered for the
    file, bound to the file; the held result, if any, is the one from
    before, and the only other changes are the message, the log entry and
    the recorded call. *)
Theorem failed_upload_keeps_original_url (file : File) (o : Outcome)
    (err : JsError) (s : Sys) :
  startsWith (file_type file) "image/" = true ->
  file_size file <= 10 * 1024 * 1024 ->
  o = Rejected err \/ o = Threw err ->
  exec (handleFile_resume file (nextURL s) o) (exec (handleFile file) s) =
  mkSys (mkAppState (dragActive (ui s)) false (processedImage (ui s))
           (Some "Failed to remove background. Please try again with a different image."))
        (<[nextURL s := OfFile file]> (objectURLs s)) (S (nextURL s))
        (console s ++ [("Background removal failed:", err)])
        (removeCalls s ++ [file]) (downloads s) (fileInputRef s) /\
  objectURLs
    (exec (handleFile_resume file (nextURL s) o) (exec (handleFile file) s))
    !! nextURL s = Some (OfFile file).
Proof.
  intros Hty Hsz Ho. unfold exec at 2 4.
  rewrite (handleFile_accepted file s Hty Hsz). cbn [snd].
  destruct Ho as [-> | ->]; (split; [reflexivity|]);
    unfold exec, handleFile_resume, bind, console_error, setError,
      setProcessing, modify_ui; project_fields; apply lookup_insert_eq.
Qed.

Lemma failed_upload_keeps_original_url_dog :
  objectURLs
    (exec (handleFile_resume dog_png 2%nat (Threw model_error))
       (exec (handleFile dog_png) cat_result))
    !! 2%nat = Some (OfFile dog_png).
Proof.
  apply (failed_upload_keeps_original_url dog_png (Threw model_error)
           model_error cat_result eq_refl).
  - discriminate.
  - right. reflexivity.
Defined.

(** ** What the regular expression removes *)

Lemma ext_matches_here_spec (s : string) :
  ext_matches_here s = true <->
  exists c ext,
    s = String "." (String c ext) /\
    all_chars not_slash_dot (String c ext) = true.
Proof.
  split.
  - destruct s as [|a [|c ext]].
    + discriminate.
    + destruct a as [[] [] [] [] [] [] [] []]; discriminate.
    + destruct (Ascii.eqb_spec a "."%char) as [->|Hne].
      * intros H. exists c, ext. split; [reflexivity|exact H].
      * destruct a as [[] [] [] [] [] [] [] []]; try discriminate.
        now contradiction Hne.
  - intros (c & ext & -> & H). exact H.
Qed.

Lemma all_chars_app (p : ascii -> bool) (s t : string) :
  all_chars p (s ++ t) = all_chars p s && all_chars p t.
Proof.
  induction s as [|c s IH]; [reflexivity|].
  simpl. now rewrite IH, andb_assoc.
Qed.

(** X9. The replacement only ever cuts a tail off the name: every name is
    what is kept followed by what is removed, and what is removed is either
    nothing or a dot followed by one or more characters that are neither a
    dot nor a slash. *)
Theorem replace_extension_cuts_suffix (s : string) :
  exists removed,
    s = replace_extension s ++ removed /\
    (removed = EmptyString \/
     exists c ext,
       removed = String "." (String c ext) /\
       all_chars not_slash_dot (String c ext) = true).
Proof.
  induction s as [|a s IH].
  - exists EmptyString. split; [reflexivity|left; reflexivity].
  - cbn [replace_extension].
    destruct (ext_matches_here (String a s)) eqn:Hm.
    + exists (String a s). split; [reflexivity|]. right.
      now apply ext_matches_here_spec.
    + destruct IH as (removed & Hs & Hshape).
      exists removed. split; [|exact Hshape].
      change (String a s = String a (replace_extension s ++ removed)).
      f_equal. exact Hs.
Qed.

Lemma replace_extension_cons (a : ascii) (s : string) :
  replace_extension (String a s) =
  if ext_matches_here (String a s) then EmptyString
  else String a (replace_extension s).
Proof. reflexivity. Qed.

(** X10. A name that ends in a dot has no extension for the pattern to take:
    it is kept whole, final dot included. *)
Theorem replace_extension_trailing_dot (s : string) :
  replace_extension (s ++ ".") = s ++ ".".
Proof.
  induction s as [|a s IH]; [reflexivity|].
  change (String a s ++ ".") with (String a (s ++ ".")).
  rewrite replace_extension_cons.
  destruct (ext_matches_here (String a (s ++ "."))) eqn:Hm.
  - apply ext_matches_here_spec in Hm as (c & ext & Heq & Hall).
    injection Heq as _ Heq. rewrite <- Heq, all_chars_app in Hall.
    apply andb_true_iff in Hall as [_ Hdot]. discriminate Hdot.
  - now rewrite IH.
Qed.

(** ** Sessions: what every step does *)

Lemma objectURLs_commit (s : Sys) : objectURLs (commit s) = objectURLs s.
Proof. unfold commit. destruct (view (ui s)), (fileInputRef s); reflexivity. Qed.

Lemma nextURL_commit (s : Sys) : nextURL (commit s) = nextURL s.
Proof. unfold commit. destruct (view (ui s)), (fileInputRef s); reflexivity. Qed.

Lemma console_commit (s : Sys) : console (commit s) = console s.
Proof. unfold commit. destruct (view (ui s)), (fileInputRef s); reflexivity. Qed.

Lemma removeCalls_commit (s : Sys) : removeCalls (commit s) = removeCalls s.
Proof. unfold commit. destruct (view (ui s)), (fileInputRef s); reflexivity. Qed.

Lemma downloads_commit (s : Sys) : downloads (commit s) = downloads s.
Proof. unfold commit. destruct (view (ui s)), (fileInputRef s); reflexivity. Qed.

Create Rewrite HintDb commit_db.
#[local] Hint Rewrite ui_commit objectURLs_commit nextURL_commit console_commit
  removeCalls_commit downloads_commit : commit_db.

Ltac commit_fields :=
  cbn [sys awaiting suspend]; autorewrite with commit_db.

(** An intake whose first file is [file], started in a state [s] that agrees
    with the configuration's on everything but the dragging flag and the
    file input. *)
Lemma run_intake_kind (m : M Suspension) (file : File) (c : Config) (s : Sys) :
  m (sys c) = handleFile file s ->
  processedImage (ui s) = processedImage (ui (sys c)) ->
  objectURLs s = objectURLs (sys c) ->
  nextURL s = nextURL (sys c) ->
  console s = console (sys c) ->
  removeCalls s = removeCalls (sys c) ->
  downloads s = downloads (sys c) ->
  step_kind c (run_intake m c).
Proof.
  intros Hm Hp Hu Hn Hc Hr Hd. unfold run_intake. rewrite Hm.
  destruct (handleFile_cases file s) as [(Href & a & msg & E)|(Href & E)];
    rewrite E.
  - apply kind_quiet; commit_fields; unfold exec, setError, modify_ui;
      project_fields; auto.
  - apply (kind_dispatch _ _ file); commit_fields; project_fields;
      rewrite ?Hu, ?Hn, ?Hr; auto.
Qed.

(** An intake with no file, or any handler that leaves everything but the
    flags, the message and the file input alone. *)
Lemma quiet_kind (c : Config) (s' : Sys) (l : list (File * ObjectURL)) :
  l = awaiting c ->
  processedImage (ui s') = processedImage (ui (sys c)) \/
  processedImage (ui s') = None ->
  objectURLs s' = objectURLs (sys c) ->
  nextURL s' = nextURL (sys c) ->
  console s' = console (sys c) ->
  removeCalls s' = removeCalls (sys c) ->
  downloads s' = downloads (sys c) ->
  step_kind c (mkConfig (commit s') l).
Proof.
  intros -> Hp Hu Hn Hc Hr Hd. apply kind_quiet; commit_fields; auto.
Qed.

Lemma handleDrag_quiet (type : string) (s : Sys) :
  processedImage (ui (exec (handleDrag type) s)) = processedImage (ui s) /\
  objectURLs (exec (handleDrag type) s) = objectURLs s /\
  nextURL (exec (handleDrag type) s) = nextURL s /\
  console (exec (handleDrag type) s) = console s /\
  removeCalls (exec (handleDrag type) s) = removeCalls s /\
  downloads (exec (handleDrag type) s) = downloads s.
Proof.
  unfold handleDrag.
  destruct (String.eqb type "dragenter" || String.eqb type "dragover");
    [repeat split|].
  destruct (String.eqb type "dragleave"); repeat split.
Qed.

Lemma step_kind_of_step (c c' : Config) (ev : Event) :
  step c ev = Some c' -> step_kind c c'.
Proof.
  assert (Hdrag : forall type, step_kind c (run_unit (handleDrag type) c)).
  { intros type. unfold run_unit.
    destruct (handleDrag_quiet type (sys c)) as (? & ? & ? & ? & ? & ?).
    apply quiet_kind; auto. }
  intros Hstep.
  destruct ev as [| | |files|files|n o| |]; cbn [step] in Hstep.
  - destruct (in_view UploadSection c); [|discriminate].
    injection Hstep as <-. apply Hdrag.
  - destruct (in_view UploadSection c); [|discriminate].
    injection Hstep as <-. apply Hdrag.
  - destruct (in_view UploadSection c); [|discriminate].
    injection Hstep as <-. apply Hdrag.
  - destruct (in_view UploadSection c); [|discriminate].
    injection Hstep as <-. destruct files as [|file rest].
    + apply (quiet_kind c (exec (setDragActive false) (sys c)));
        auto.
    + apply (run_intake_kind _ file c (exec (setDragActive false) (sys c)));
        reflexivity.
  - destruct (in_view UploadSection c); [|discriminate].
    injection Hstep as <-. destruct files as [|file rest].
    + apply (quiet_kind c
               (exec (set_fileInputRef (Some (input_value []))) (sys c)));
        auto.
    + apply (run_intake_kind _ file c
               (exec (set_fileInputRef (Some (input_value (file :: rest))))
                  (sys c)));
        reflexivity.
  - destruct (awaiting c !! n) as [[file originalUrl]|] eqn:Hn;
      [|discriminate].
    injection Hstep as <-.
    destruct o as [imageBlob|err|err].
    + apply (kind_fulfilled _ _ n file originalUrl imageBlob);
        commit_fields; auto.
    + apply (kind_failed _ _ n file originalUrl err); commit_fields; auto.
    + apply (kind_failed _ _ n file originalUrl err); commit_fields; auto.
  - destruct (in_view ResultsSection c) eqn:Hv; [|discriminate].
    injection Hstep as <-.
    apply in_view_true, view_results in Hv as [[p Hp] _].
    unfold run_unit, exec. rewrite (handleDownload_effect _ p Hp).
    apply (kind_download _ _ p); commit_fields; auto.
  - destruct (in_view ResultsSection c); [|discriminate].
    injection Hstep as <-.
    unfold run_unit, exec. rewrite handleReset_effect.
    apply quiet_kind; auto.
Qed.

(** ** Sessions: the URL store *)

Lemma store_old_entry (c : Config) (u : ObjectURL) (x y : BlobSource) :
  store_inv c ->
  objectURLs (sys c) !! u = Some x ->
  <[nextURL (sys c) := y]> (objectURLs (sys c)) !! u = Some x.
Proof.
  intros (Hdom & _) Hu.
  assert (Hlt : (u < nextURL (sys c))%nat) by (apply Hdom; red; eauto).
  rewrite lookup_insert_ne by lia. exact Hu.
Qed.

Lemma store_insert_dom (c : Config) (u : ObjectURL) (y : BlobSource) :
  store_inv c ->
  is_Some (<[nextURL (sys c) := y]> (objectURLs (sys c)) !! u) <->
  (u < S (nextURL (sys c)))%nat.
Proof.
  intros (Hdom & _).
  destruct (decide (nextURL (sys c) = u)) as [<-|Hne].
  - rewrite lookup_insert_eq. split; [lia|eauto].
  - rewrite lookup_insert_ne by exact Hne.
    unfold live in Hdom. rewrite Hdom. lia.
Qed.

Lemma step_kind_preserves_store_inv (c c' : Config) :
  store_inv c -> step_kind c c' -> store_inv c'.
Proof.
  intros Hinv Hk.
  pose proof Hinv as (Hdom & Haw & Hres & Hdl & Hcalls & Hcount).
  destruct Hk as
    [Hu Hn Hc Hr Hd Ha Hp
    |p Hp Hui Hu Hn Hc Hr Hd Ha
    |file Href Hp Hu Hn Hc Hr Hd Ha
    |n file originalUrl imageBlob Hk Ha Hp Hu Hn Hc Hr Hd
    |n file originalUrl err Hk Ha Hp Hu Hn Hc Hr Hd];
    unfold store_inv, live; rewrite Hu, Hn, Hc, Hr, Hd, Ha.
  - repeat split; try (apply Hdom); auto.
    intros p Hp'. destruct Hp as [Hp|Hp]; rewrite Hp in Hp'; [auto|discriminate].
  - rewrite Hui. repeat split; try (apply Hdom); auto.
    intros href fname [Hin|Hin%list_elem_of_singleton]%elem_of_app; [eauto|].
    injection Hin as -> _.
    destruct (Hres p Hp) as (f & b & _ & _ & Hb). eauto.
  - rewrite Hp. repeat split.
    + apply (store_insert_dom c u (OfFile file) Hinv).
    + apply (store_insert_dom c u (OfFile file) Hinv).
    + intros f url [Hin|Hin%list_elem_of_singleton]%elem_of_app.
      * apply (store_old_entry c url _ _ Hinv). auto.
      * injection Hin as -> ->. apply lookup_insert_eq.
    + intros p' Hp'. destruct (Hres p' Hp') as (f & b & Ho & Hname & Hb).
      exists f, b. repeat split; auto using store_old_entry.
    + intros href fname Hin. destruct (Hdl href fname Hin) as [b Hb].
      exists b. auto using store_old_entry.
    + intros f [Hin|Hin%list_elem_of_singleton]%elem_of_app;
        [auto|congruence].
    + rewrite !length_app. cbn [length]. lia.
  - rewrite Hp. repeat split.
    + apply (store_insert_dom c u (OfBlob imageBlob) Hinv).
    + apply (store_insert_dom c u (OfBlob imageBlob) Hinv).
    + intros f url Hin%list_elem_of_delete_inv.
      apply (store_old_entry c url _ _ Hinv). auto.
    + intros p' [= <-]. exists file, imageBlob. cbn [original processed name].
      split; [|split; [reflexivity|apply lookup_insert_eq]].
      apply (store_old_entry c originalUrl _ _ Hinv).
      apply Haw. exact (list_elem_of_lookup_2 _ _ _ Hk).
    + intros href fname Hin. destruct (Hdl href fname Hin) as [b Hb].
      exists b. auto using store_old_entry.
    + exact Hcalls.
    + assert (Hlen : (n < length (awaiting c))%nat)
        by (apply lookup_lt_is_Some; eauto).
      rewrite length_delete by eauto. lia.
  - rewrite Hp. repeat split; try (apply Hdom); auto.
    + intros f url Hin%list_elem_of_delete_inv. auto.
    + assert (Hlen : (n < length (awaiting c))%nat)
        by (apply lookup_lt_is_Some; eauto).
      rewrite length_delete by eauto. rewrite length_app. cbn [length]. lia.
Qed.

Lemma initial_store_inv : store_inv initial.
Proof.
  unfold store_inv, live. cbn [initial sys awaiting ui objectURLs nextURL
    console removeCalls downloads processedImage length].
  repeat split.
  - intros [x Hx]. rewrite lookup_empty in Hx. discriminate.
  - lia.
  - intros file url Hin. now apply elem_of_nil in Hin.
  - discriminate.
  - intros href fname Hin. now apply elem_of_nil in Hin.
  - intros f Hin. now apply elem_of_nil in Hin.
Qed.

Lemma reachable_store_inv (c : Config) : reachable c -> store_inv c.
Proof.
  induction 1 as [|c ev c' _ IH Hstep].
  - exact initial_store_inv.
  - exact (step_kind_preserves_store_inv c c' IH (step_kind_of_step c c' ev Hstep)).
Qed.

Lemma run_from_reachable (evs : list Event) (c : Config) :
  reachable c -> reachable (run_from c evs).
Proof.
  revert c. induction evs as [|ev evs IH]; intros c Hc; cbn [run_from].
  - exact Hc.
  - destruct (step c ev) as [c'|] eqn:Hstep; [|exact Hc].
    apply IH. exact (reachable_step c ev c' Hc Hstep).
Qed.

Lemma after_reachable (evs : list Event) : reachable (after evs).
Proof. exact (run_from_reachable evs initial reachable_initial). Qed.

(** ** Sessions: properties of every reachable configuration *)

(** X4. Nothing in a session ever releases or rebinds an object URL: the
    live URLs are exactly those handed out so far, and an entry of the store
    is still there, bound to the same object, after any further event. *)
Theorem object_urls_never_released (c : Config) :
  reachable c ->
  (forall u, live u (sys c) <-> (u < nextURL (sys c))%nat) /\
  (forall ev c' u obj,
     step c ev = Some c' ->
     objectURLs (sys c) !! u = Some obj ->
     objectURLs (sys c') !! u = Some obj).
Proof.
  intros Hreach. pose proof (reachable_store_inv c Hreach) as Hinv.
  split; [apply Hinv|].
  intros ev c' u obj Hstep Hu.
  destruct (step_kind_of_step c c' ev Hstep) as
    [Hs _ _ _ _ _ _
    |p _ _ Hs _ _ _ _ _
    |file _ _ Hs _ _ _ _ _
    |n file originalUrl imageBlob _ _ _ Hs _ _ _ _
    |n file originalUrl err _ _ _ Hs _ _ _ _];
    rewrite Hs; auto using store_old_entry.
Qed.

Lemma object_urls_never_released_mixed :
  (forall u, live u (sys (after mixed_session)) <-> (u < 3)%nat) /\
  (forall ev c' u obj,
     step (after mixed_session) ev = Some c' ->
     objectURLs (sys (after mixed_session)) !! u = Some obj ->
     objectURLs (sys c') !! u = Some obj).
Proof.
  exact (object_urls_never_released (after mixed_session)
           (after_reachable mixed_session)).
Defined.

(** X5. The store grows by one URL per dispatch and one more per fulfilled
    call: at any point of a session, the URLs handed out, the failures
    logged and the calls still awaited add up to twice the number of calls
    made. *)
Theorem object_urls_accounting (c : Config) :
  reachable c ->
  (nextURL (sys c) + length (console (sys c)) + length (awaiting c) =
   2 * length (removeCalls (sys c)))%nat.
Proof. intros Hreach. apply (reachable_store_inv c Hreach). Qed.

Lemma object_urls_accounting_mixed :
  (nextURL (sys (after mixed_session)) +
   length (console (sys (after mixed_session))) +
   length (awaiting (after mixed_session)) =
   2 * length (removeCalls (sys (after mixed_session))))%nat /\
  nextURL (sys (after mixed_session)) = 3%nat.
Proof.
  split; [|reflexivity].
  exact (object_urls_accounting (after mixed_session)
           (after_reachable mixed_session)).
Defined.

(** X6. The result on show never dangles: in a session, the held result's
    original URL is bound in the store to a file of the result's name, its
    processed URL is bound to a blob, and the two URLs differ. *)
Theorem result_references_live (c : Config) (p : ProcessedImage) :
  reachable c ->
  processedImage (ui (sys c)) = Some p ->
  (exists f b,
     objectURLs (sys c) !! original p = Some (OfFile f) /\
     file_name f = name p /\
     objectURLs (sys c) !! processed p = Some (OfBlob b)) /\
  original p <> processed p.
Proof.
  intros Hreach Hp.
  destruct (reachable_store_inv c Hreach) as (_ & _ & Hres & _).
  destruct (Hres p Hp) as (f & b & Ho & Hname & Hb).
  split; [eauto|]. intros Heq. rewrite Heq in Ho. congruence.
Qed.

Lemma result_references_live_mixed :
  (exists f b,
     objectURLs (sys (after mixed_session)) !! 1%nat = Some (OfFile f) /\
     file_name f = "dog.png" /\
     objectURLs (sys (after mixed_session)) !! 2%nat = Some (OfBlob b)) /\
  1%nat <> 2%nat.
Proof.
  exact (result_references_live (after mixed_session)
           (mkProcessedImage 1%nat 2%nat "dog.png")
           (after_reachable mixed_session) eq_refl).
Defined.

(** X11. [removeBackground] is only ever handed files that passed both
    guards: every call recorded in a session is on a file whose type starts
    with [image/] and whose size is at most 10 MiB. *)
Theorem only_valid_files_are_sent (c : Config) (f : File) :
  reachable c ->
  f ∈ removeCalls (sys c) ->
  startsWith (file_type f) "image/" = true /\
  file_size f <= 10 * 1024 * 1024.
Proof.
  intros Hreach Hin.
  destruct (reachable_store_inv c Hreach) as (_ & _ & _ & _ & Hcalls & _).
  specialize (Hcalls f Hin). unfold refused in Hcalls.
  apply orb_false_iff in Hcalls as [Hty Hsz].
  apply negb_false_iff in Hty. apply gtb_false_le in Hsz. auto.
Qed.

Lemma only_valid_files_are_sent_mixed :
  startsWith (file_type dog_png) "image/" = true /\
  file_size dog_png <= 10 * 1024 * 1024.
Proof.
  apply (only_valid_files_are_sent (after mixed_session) dog_png
           (after_reachable mixed_session)).
  vm_compute. apply list_elem_of_In. right. left. reflexivity.
Defined.

(** X12. Every link that [handleDownload] clicked in a session pointed at a
    URL that is bound, then and ever after, to a blob returned by the
    external call. *)
Theorem downloads_point_at_blobs (c : Config) (href : ObjectURL)
    (fname : string) :
  reachable c ->
  (href, fname) ∈ downloads (sys c) ->
  exists b, objectURLs (sys c) !! href = Some (OfBlob b).
Proof.
  intros Hreach Hin.
  destruct (reachable_store_inv c Hreach) as (_ & _ & _ & Hdl & _).
  exact (Hdl href fname Hin).
Qed.

Lemma downloads_point_at_blobs_mixed :
  exists b, objectURLs (sys (after mixed_session)) !! 2%nat = Some (OfBlob b).
Proof.
  apply (downloads_point_at_blobs (after mixed_session) 2%nat
           "bg-removed-dog.png" (after_reachable mixed_session)).
  vm_compute. apply list_elem_of_In. left. reflexivity.
Defined.

(** X7. Uploads do not overlap: in a session at most one external call is
    awaited, one is awaited exactly while the processing section shows, and
    while it shows the only event the page accepts is the end of that
    call. *)
Theorem one_call_outstanding (c : Config) :
  reachable c ->
  (length (awaiting c) <= 1)%nat /\
  (awaiting c <> [] <-> view (ui (sys c)) = ProcessingSection) /\
  (view (ui (sys c)) = ProcessingSection ->
   forall ev c', step c ev = Some c' -> exists o, ev = EvSettle 0 o).
Proof.
  intros Hreach. pose proof (reachable_intake_inv c Hreach) as Hinv.
  assert (Hview : view (ui (sys c)) = ProcessingSection <->
                  processing (ui (sys c)) = true).
  { split; [|apply view_processing].
    unfold view. destruct (processedImage (ui (sys c))),
      (processing (ui (sys c))); cbn; congruence. }
  split; [|split].
  - destruct Hinv as [[-> _]|(k & -> & _)]; cbn; lia.
  - rewrite Hview.
    destruct Hinv as [[-> ->]|(k & -> & -> & _)]; split; congruence.
  - intros Hv ev c' Hstep.
    assert (Hup : in_view UploadSection c = false).
    { unfold in_view. now rewrite Hv. }
    assert (Hres : in_view ResultsSection c = false).
    { unfold in_view. now rewrite Hv. }
    destruct ev as [| | |files|files|n o| |]; cbn [step] in Hstep;
      rewrite ?Hup, ?Hres in Hstep; try discriminate Hstep.
    apply Hview in Hv.
    destruct Hinv as [[_ Hp]|(k & Ha & _)]; [congruence|].
    rewrite Ha in Hstep.
    destruct n as [|n]; [eauto|]. destruct n; discriminate Hstep.
Qed.

Lemma one_call_outstanding_pending :
  (length (awaiting (after pending_session)) <= 1)%nat /\
  (awaiting (after pending_session) <> [] <->
   view (ui (sys (after pending_session))) = ProcessingSection) /\
  (view (ui (sys (after pending_session))) = ProcessingSection ->
   forall ev c',
     step (after pending_session) ev = Some c' -> exists o, ev = EvSettle 0 o).
Proof.
  exact (one_call_outstanding (after pending_session)
           (after_reachable pending_session)).
Defined.

Lemma view_ext (u u' : AppState) :
  processing u' = processing u ->
  processedImage u' = processedImage u ->
  view u' = view u.
Proof. intros Hp Hq. unfold view. now rewrite Hp, Hq. Qed.

(** An intake that dispatches has cleared the message. *)
Lemma run_intake_error (m : M Suspension) (file : File) (c : Config) (s : Sys) :
  m (sys c) = handleFile file s ->
  refused file = false ->
  error (ui (sys (run_intake m c))) = None.
Proof.
  intros Hm Href. unfold run_intake. rewrite Hm.
  destruct (handleFile_cases file s) as [(Href' & _)|(_ & E)]; [congruence|].
  rewrite E. commit_fields. reflexivity.
Qed.

Lemma step_keeps_error_out (c c' : Config) (ev : Event) :
  intake_inv c ->
  (view (ui (sys c)) <> UploadSection -> error (ui (sys c)) = None) ->
  step c ev = Some c' ->
  view (ui (sys c')) <> UploadSection ->
  error (ui (sys c')) = None.
Proof.
  intros Hinv IH Hstep Hv'.
  assert (Hsame : in_view UploadSection c = true ->
                  processing (ui (sys c')) = processing (ui (sys c)) ->
                  processedImage (ui (sys c')) = processedImage (ui (sys c)) ->
                  error (ui (sys c')) = None).
  { intros Hv Hp Hq. apply in_view_true in Hv.
    contradiction Hv'. rewrite <- Hv. now apply view_ext. }
  assert (Hintake : forall m file s,
             in_view UploadSection c = true ->
             c' = run_intake m c ->
             m (sys c) = handleFile file s ->
             ui s = ui (sys c) \/
             ui s = mkAppState false (processing (ui (sys c)))
                      (processedImage (ui (sys c))) (error (ui (sys c))) ->
             error (ui (sys c')) = None).
  { intros m file s Hv -> Hm Hui.
    destruct (run_intake_handleFile m file c s Hm Hui)
      as [(_ & _ & Hp & Hq & _)|(Href & _)].
    - now apply Hsame.
    - exact (run_intake_error m file c s Hm Href). }
  destruct ev as [| | |files|files|n o| |]; cbn [step] in Hstep.
  - destruct (in_view UploadSection c) eqn:Hv; [|discriminate].
    injection Hstep as <-. unfold run_unit in *. cbn [sys] in *.
    rewrite ui_commit in *.
    destruct (handleDrag_ui "dragenter" (sys c)) as (Hp & Hq & _). auto.
  - destruct (in_view UploadSection c) eqn:Hv; [|discriminate].
    injection Hstep as <-. unfold run_unit in *. cbn [sys] in *.
    rewrite ui_commit in *.
    destruct (handleDrag_ui "dragover" (sys c)) as (Hp & Hq & _). auto.
  - destruct (in_view UploadSection c) eqn:Hv; [|discriminate].
    injection Hstep as <-. unfold run_unit in *. cbn [sys] in *.
    rewrite ui_commit in *.
    destruct (handleDrag_ui "dragleave" (sys c)) as (Hp & Hq & _). auto.
  - destruct (in_view UploadSection c) eqn:Hv; [|discriminate].
    injection Hstep as Hc'. destruct files as [|file rest].
    + assert (Hc2 : c' = mkConfig
                           (commit (exec (setDragActive false) (sys c)))
                           (awaiting c)) by (now rewrite <- Hc').
      apply Hsame; [reflexivity| |]; rewrite Hc2; commit_fields; reflexivity.
    + apply (Hintake (handleDrop (file :: rest)) file
               (exec (setDragActive false) (sys c)));
        [reflexivity|now symmetry|reflexivity|]. right. reflexivity.
  - destruct (in_view UploadSection c) eqn:Hv; [|discriminate].
    injection Hstep as Hc'. destruct files as [|file rest].
    + assert (Hc2 : c' = mkConfig
                           (commit (exec (set_fileInputRef
                                            (Some (input_value []))) (sys c)))
                           (awaiting c)) by (now rewrite <- Hc').
      apply Hsame; [reflexivity| |]; rewrite Hc2; commit_fields; reflexivity.
    + apply (Hintake
               (set_fileInputRef (Some (input_value (file :: rest))) ;;;
                handleFileInput (file :: rest))
               file
               (exec (set_fileInputRef (Some (input_value (file :: rest))))
                  (sys c)));
        [reflexivity|now symmetry|reflexivity|]. left. reflexivity.
  - destruct (awaiting c !! n) as [[file originalUrl]|] eqn:Hn;
      [|discriminate].
    injection Hstep as <-.
    destruct Hinv as [[Ha _]|(k & Ha & Hp & Hq)]; rewrite Ha in Hn.
    { destruct n; discriminate. }
    cbn [sys] in *. rewrite ui_commit in *.
    destruct o as [imageBlob|err|err].
    + unfold exec. rewrite handleFile_resume_fulfilled. cbn [snd ui error].
      apply IH. rewrite (view_processing _ Hp). discriminate.
    + contradiction Hv'. apply view_upload. split; [exact Hq|reflexivity].
    + contradiction Hv'. apply view_upload. split; [exact Hq|reflexivity].
  - destruct (in_view ResultsSection c) eqn:Hv; [|discriminate].
    injection Hstep as <-.
    apply in_view_true in Hv. pose proof Hv as Hv2.
    apply view_results in Hv2 as [[p Hp] _].
    unfold run_unit, exec. cbn [sys]. rewrite ui_commit.
    rewrite (handleDownload_effect _ p Hp). cbn [snd ui].
    apply IH. rewrite Hv. discriminate.
  - destruct (in_view ResultsSection c); [|discriminate].
    injection Hstep as <-.
    unfold run_unit, exec. cbn [sys]. rewrite ui_commit.
    rewrite handleReset_effect. reflexivity.
Qed.

(** X8. The error banner only ever accompanies the upload section: in a
    session, whenever the processing or the results section shows, the
    message is [null], whatever errors came before. *)
Theorem error_only_with_upload (c : Config) :
  reachable c ->
  view (ui (sys c)) <> UploadSection ->
  error (ui (sys c)) = None /\ errorBanner (ui (sys c)) = None.
Proof.
  intros Hreach Hv.
  assert (He : error (ui (sys c)) = None).
  { revert Hv. induction Hreach as [|c ev c' Hreach IH Hstep].
    - reflexivity.
    - apply (step_keeps_error_out c c' ev); auto using reachable_intake_inv. }
  split; [exact He|]. unfold errorBanner. now rewrite He.
Qed.

Lemma error_only_with_upload_mixed :
  error (ui (sys (after mixed_session))) = None /\
  errorBanner (ui (sys (after mixed_session))) = None.
Proof.
  apply (error_only_with_upload (after mixed_session)
           (after_reachable mixed_session)).
  discriminate.
Defined.

(** ** Sessions: the file input *)

Lemma step_is_commit (c c' : Config) (ev : Event) :
  step c ev = Some c' -> exists x, sys c' = commit x.
Proof.
  destruct ev as [| | |files|files|n o| |]; cbn [step];
    try (destruct (in_view _ c); [|discriminate]; intros [= <-];
         unfold run_unit, run_intake;
         try match goal with
             | |- context [let (_, _) := ?m in _] => destruct m
             end;
         eexists; reflexivity).
  destruct (awaiting c !! n) as [[file originalUrl]|]; [|discriminate].
  intros [= <-]. eexists. reflexivity.
Qed.

Lemma commit_mounts (x : Sys) :
  is_Some (fileInputRef (commit x)) <->
  view (ui (commit x)) = UploadSection.
Proof.
  rewrite ui_commit. unfold commit.
  destruct (view (ui x)), (fileInputRef x) eqn:Hf; split; intros H;
    try reflexivity; try discriminate H;
    try (rewrite ?Hf; eexists; reflexivity);
    destruct H as [v Hv]; discriminate Hv.
Qed.

(** X14. The file input is mounted exactly while the upload section shows.
    So whenever the reset button can be clicked, [fileInputRef.current] is
    [null]: [handleReset] finds no input to clear, and the input is empty
    afterwards because the upload section mounts a new one. *)
Theorem file_input_mounted_with_upload (c : Config) :
  reachable c ->
  (is_Some (fileInputRef (sys c)) <-> view (ui (sys c)) = UploadSection) /\
  (forall c',
     step c EvClickReset = Some c' ->
     fileInputRef (sys c) = None /\
     fileInputRef (exec handleReset (sys c)) = None /\
     fileInputRef (sys c') = Some "").
Proof.
  intros Hreach.
  assert (Hmount : is_Some (fileInputRef (sys c)) <->
                   view (ui (sys c)) = UploadSection).
  { destruct Hreach as [|c ev c' _ Hstep].
    - split; [reflexivity|]. intros _. eexists. reflexivity.
    - destruct (step_is_commit c c' ev Hstep) as [x ->].
      apply commit_mounts. }
  split; [exact Hmount|].
  intros c' Hstep.
  assert (Hnone : fileInputRef (sys c) = None).
  { cbn [step] in Hstep.
    destruct (in_view ResultsSection c) eqn:Hv; [|discriminate].
    apply in_view_true in Hv.
    destruct (fileInputRef (sys c)) as [v|] eqn:Hf; [|reflexivity].
    assert (Hup : view (ui (sys c)) = UploadSection)
      by (apply Hmount; eauto).
    congruence. }
  split; [exact Hnone|]. split.
  - unfold exec. rewrite handleReset_effect. cbn [snd fileInputRef].
    now rewrite Hnone.
  - exact (proj2 (click_reset_fresh_input c c' Hstep)).
Qed.

Lemma file_input_mounted_with_upload_mixed :
  (is_Some (fileInputRef (sys (after mixed_session))) <->
   view (ui (sys (after mixed_session))) = UploadSection) /\
  (forall c',
     step (after mixed_session) EvClickReset = Some c' ->
     fileInputRef (sys (after mixed_session)) = None /\
     fileInputRef (exec handleReset (sys (after mixed_session))) = None /\
     fileInputRef (sys c') = Some "").
Proof.
  exact (file_input_mounted_with_upload (after mixed_session)
           (after_reachable mixed_session)).
Defined.

(** ** The dragging flag outside the drag handlers *)

(** X15. Only [handleDrag] and [handleDrop] write the dragging flag: a
    selection through the file input, the end of an external call, a
    download and a reset all leave it as they found it. *)
Theorem dragActive_left_alone (files : list File) (file : File)
    (originalUrl : ObjectURL) (o : Outcome) (s : Sys) :
  dragActive (ui (exec (handleFileInput files) s)) = dragActive (ui s) /\
  dragActive (ui (exec (handleFile_resume file originalUrl o) s)) =
    dragActive (ui s) /\
  dragActive (ui (exec handleDownload s)) = dragActive (ui s) /\
  dragActive (ui (exec handleReset s)) = dragActive (ui s).
Proof.
  repeat split.
  - destruct files as [|f rest]; [reflexivity|].
    unfold handleFileInput, with_first_file, handleFile, exec.
    destruct (startsWith (file_type f) "image/"); [|reflexivity].
    destruct (file_size f >? 10 * 1024 * 1024); reflexivity.
  - destruct o; reflexivity.
  - unfold exec, handleDownload.
    destruct (processedImage (ui s)); reflexivity.
  - unfold exec. rewrite handleReset_effect. reflexivity.
Qed.

(** ** An upload from drop to download *)

(** X16. From any point of a session where the upload section shows,
    dropping a file that passes the guards, the call being fulfilled and a
    click on the download button are accepted in that order, and the link
    clicked points at the URL of the returned blob and is named after the
    dropped file. *)
Theorem drop_fulfil_download (c : Config) (file : File) (imageBlob : Blob) :
  reachable c ->
  view (ui (sys c)) = UploadSection ->
  startsWith (file_type file) "image/" = true ->
  file_size file <= 10 * 1024 * 1024 ->
  exists c',
    run [EvDrop [file]; EvSettle 0 (Fulfilled imageBlob); EvClickDownload] c =
      Some c' /\
    view (ui (sys c')) = ResultsSection /\
    processedImage (ui (sys c')) =
      Some (mkProcessedImage (nextURL (sys c)) (S (nextURL (sys c)))
              (file_name file)) /\
    objectURLs (sys c') !! S (nextURL (sys c)) = Some (OfBlob imageBlob) /\
    downloads (sys c') =
      (downloads (sys c) ++
       [(S (nextURL (sys c)),
         ("bg-removed-" ++ replace_extension (file_name file) ++ ".png")%string)])%list.
Proof.
  intros Hreach Hv Hty Hsz.
  assert (Ha : awaiting c = []).
  { apply view_upload in Hv as [_ Hp].
    destruct (reachable_intake_inv c Hreach) as [[Ha _]|(k & _ & Hk & _)];
      [exact Ha|congruence]. }
  apply in_view_true in Hv.
  (* the drop *)
  set (s1 := snd (handleFile file (exec (setDragActive false) (sys c)))).
  assert (H1 : step c (EvDrop [file]) =
               Some (mkConfig (commit s1) [(file, nextURL (sys c))])).
  { cbn [step]. rewrite Hv. unfold run_intake, s1.
    change (handleDrop [file] (sys c))
      with (handleFile file (exec (setDragActive false) (sys c))).
    rewrite (handleFile_accepted file _ Hty Hsz), Ha. reflexivity. }
  assert (Hs1 : objectURLs s1 =
                  <[nextURL (sys c) := OfFile file]> (objectURLs (sys c)) /\
                nextURL s1 = S (nextURL (sys c)) /\
                downloads s1 = downloads (sys c)).
  { unfold s1. rewrite (handleFile_accepted file _ Hty Hsz).
    repeat split. }
  destruct Hs1 as (Hu1 & Hn1 & Hd1).
  (* the end of the call *)
  set (s2 := exec (handleFile_resume file (nextURL (sys c))
                     (Fulfilled imageBlob)) (commit s1)).
  assert (H2 : step (mkConfig (commit s1) [(file, nextURL (sys c))])
                 (EvSettle 0 (Fulfilled imageBlob)) =
               Some (mkConfig (commit s2) [])) by reflexivity.
  assert (Hs2 : processedImage (ui s2) =
                  Some (mkProcessedImage (nextURL (sys c))
                          (S (nextURL (sys c))) (file_name file)) /\
                processing (ui s2) = false /\
                objectURLs s2 =
                  <[S (nextURL (sys c)) := OfBlob imageBlob]>
                    (<[nextURL (sys c) := OfFile file]>
                       (objectURLs (sys c))) /\
                downloads s2 = downloads (sys c)).
  { unfold s2, exec. rewrite handleFile_resume_fulfilled. cbn [snd].
    project_fields. autorewrite with commit_db.
    rewrite Hu1, Hn1, Hd1. repeat split. }
  destruct Hs2 as (Hp2 & Hq2 & Hu2 & Hd2).
  (* the download *)
  assert (Hres : in_view ResultsSection (mkConfig (commit s2) []) = true).
  { apply in_view_true. cbn [sys]. rewrite ui_commit.
    apply view_results. rewrite Hp2. eauto. }
  exists (run_unit handleDownload (mkConfig (commit s2) [])).
  split.
  { cbn [run]. rewrite H1, H2. cbn [step]. now rewrite Hres. }
  unfold run_unit, exec. cbn [sys].
  rewrite (handleDownload_effect (commit s2)
             (mkProcessedImage (nextURL (sys c)) (S (nextURL (sys c)))
                (file_name file)))
    by (now rewrite ui_commit).
  cbn [snd]. autorewrite with commit_db. project_fields.
  autorewrite with commit_db. cbn [processed name].
  rewrite Hu2, Hd2.
  split; [apply view_results; rewrite Hp2; eauto|].
  split; [exact Hp2|].
  split; [apply lookup_insert_eq|reflexivity].
Qed.

Lemma drop_fulfil_download_dog :
  exists c',
    run [EvDrop [dog_png]; EvSettle 0 (Fulfilled dog_cutout); EvClickDownload]
      (after [EvChange [doc_pdf]]) = Some c' /\
    view (ui (sys c')) = ResultsSection /\
    processedImage (ui (sys c')) =
      Some (mkProcessedImage 0%nat 1%nat "dog.png") /\
    objectURLs (sys c') !! 1%nat = Some (OfBlob dog_cutout) /\
    downloads (sys c') = [(1%nat, "bg-removed-dog.png")].
Proof.
  apply (drop_fulfil_download (after [EvChange [doc_pdf]]) dog_png dog_cutout
           (after_reachable [EvChange [doc_pdf]])).
  - reflexivity.
  - reflexivity.
  - discriminate.
Defined.
